(** * golinstor: the client-side LINSTOR orchestration library, verified

    A shallow embedding of [linstor.go] (package [linstor]) with the
    properties its specification states about it.

    Conventions of the embedding.
    - A Go [string] and a Go [[]byte] are both byte sequences: [string].
    - Go's [int] and [uint64] are [Z]; the only arithmetic the package does on
      them is the bit mask of [linstorSuccess] and the comparison with 0.
    - A slice is a [list]; an embedded pointer is an [option].
    - Fields keep their Go names; where two structs have a field of one
      name, a prefix tells them apart ([r_Name] of [Resource], [Name] of
      [resInfo]).
    - An [error] value is kept unrendered: a [fmt.Errorf] call is its format
      string with its operands ([Errorf]); an error made by [os/exec], [os]
      or [encoding/json] is opaque ([Foreign]).  [nil] is [None].
    - A run-time panic is the outcome [Panics].
    - The host (processes, file system, clock), [encoding/json] and the rule
      for iteration variables of the Go the package is built with are
      parameters of the code: classes [Host], [Json] and [Language].
    - A call that runs commands is a function from the state of a run (the
      host and the log of commands) to an outcome and a state: [Go]. *)

From Stdlib Require Import ZArith String Ascii List Lia Bool.
From Stdlib Require DecimalString DecimalPos DecimalZ.
From stdpp Require Import base option list strings gmap.

Open Scope string_scope.
Open Scope Z_scope.

(** ** Data model *)

(** [type volInfo struct] *)
Record volInfo := mk_volInfo {
  HasDisk : bool;
  CheckMetaData : bool;
  HasMetaData : bool;
  vol_IsPresent : bool;
  DiskFailed : bool;
  NetSize : Z;
  VlmMinorNr : Z;
  GrossSize : Z;
  VlmNr : Z
}.

(** The zero value [volInfo{}]. *)
Definition volInfo_zero : volInfo :=
  mk_volInfo false false false false false 0 0 0 0.

(** The key/value pair structs of [Props], [ObjRefs] and [Variables]. *)
Record keyValue := mk_keyValue {
  kv_Value : string;
  kv_Key : string
}.

(** The element struct of [resInfo.Vlms]. *)
Record resVlm := mk_resVlm {
  rv_VlmNr : Z;
  StorPoolName : string;
  StorPoolUUID : string;
  rv_VlmMinorNr : Z;
  VlmUUID : string;
  VlmDfnUUID : string
}.

(** [type resInfo struct]: a resource-definition record. *)
Record resInfo := mk_resInfo {
  Vlms : list resVlm;
  NodeUUID : string;
  UUID : string;
  NodeName : string;
  Props : list keyValue;
  RscDfnUUID : string;
  Name : string;
  RscFlags : list string
}.

(** The element struct of [ResourceStates]: a resource-state record. *)
Record resState := mk_resState {
  RequiresAdjust : bool;
  RscName : string;
  IsPrimary : bool;
  VlmStates : list volInfo;
  rs_IsPresent : bool;
  rs_NodeName : string
}.

(** The element struct of [type resList []struct]. *)
Record resListEntry := mk_resListEntry {
  ResourceStates : list resState;
  Resources : list resInfo
}.

Definition resList := list resListEntry.

(** The element struct of [type returnStatuses []struct]. *)
Record returnStatus := mk_returnStatus {
  DetailsFormat : string;
  MessageFormat : string;
  CauseFormat : string;
  ObjRefs : list keyValue;
  Variables : list keyValue;
  RetCode : Z
}.

Definition returnStatuses := list returnStatus.

(** [type Resource struct] *)
Record Resource := mk_Resource {
  r_Name : string;
  r_NodeName : string;
  Redundancy : string;
  NodeList : list string;
  ClientList : list string;
  StoragePool : string;
  SizeKiB : Z
}.

(** [type FSUtil struct]: the embedded [*Resource], [None] when the pointer
    is nil, and the file system type. *)
Record FSUtil := mk_FSUtil {
  fs_Resource : option Resource;
  FSType : string
}.

(** ** Errors and outcomes *)

Inductive error :=
| Errorf (format : string) (operands : list operand)
| Foreign (message : string)
with operand :=
| OString (s : string)
| OError (e : error)
| OMap (m : gmap string string).

(** What a call does: return its results, or panic. *)
Inductive outcome (A : Type) :=
| Returns (a : A)
| Panics (message : string).
Arguments Returns {A} a.
Arguments Panics {A} message.

Definition index_out_of_range : string := "runtime error: index out of range".
Definition nil_dereference : string :=
  "runtime error: invalid memory address or nil pointer dereference".

(** ** The status validator *)

Definition maskError : Z := 0xC000000000000000.
Definition maskWarn : Z := 0x8000000000000000.
Definition maskInfo : Z := 0x4000000000000000.

(** [func linstorSuccess(retcode uint64) bool] *)
Definition linstorSuccess (retcode : Z) : bool :=
  Z.land retcode (Z.lor (Z.lor maskError maskWarn) maskInfo) =? 0.

(** The three severity bits as the specification names them. *)
Definition spec_errorBit : Z := Z.shiftl 1 63.
Definition spec_warnBit : Z := Z.shiftl 1 62.
Definition spec_infoBit : Z := Z.shiftl 1 61.

(** ** The parts of [strings] and [fmt] the package uses *)

Definition byte_code (c : ascii) : N := N_of_ascii c.

(** The width in bytes of the white-space rune [s] starts with, 0 when it
    starts with none.  These are the runes of [unicode.IsSpace]: U+0009 to
    U+000D, U+0020, U+0085, U+00A0, U+1680, U+2000 to U+200A, U+2028, U+2029,
    U+202F, U+205F and U+3000, in UTF-8.  A lead byte is never a
    continuation byte, so a match at a byte offset is a match at a rune
    boundary of Go's decoder. *)
Definition space_width (s : string) : nat :=
  match s with
  | String c0 s1 =>
    let b0 := byte_code c0 in
    if ((9 <=? b0) && (b0 <=? 13) || (b0 =? 32))%N then 1%nat
    else match s1 with
    | String c1 s2 =>
      let b1 := byte_code c1 in
      if ((b0 =? 0xC2) && ((b1 =? 0x85) || (b1 =? 0xA0)))%N then 2%nat
      else match s2 with
      | String c2 _ =>
        let b2 := byte_code c2 in
        if ((b0 =? 0xE1) && (b1 =? 0x9A) && (b2 =? 0x80)
            || (b0 =? 0xE2) && (b1 =? 0x80)
               && ((0x80 <=? b2) && (b2 <=? 0x8A)
                   || (b2 =? 0xA8) || (b2 =? 0xA9) || (b2 =? 0xAF))
            || (b0 =? 0xE2) && (b1 =? 0x81) && (b2 =? 0x9F)
            || (b0 =? 0xE3) && (b1 =? 0x80) && (b2 =? 0x80))%N
        then 3%nat else 0%nat
      | EmptyString => 0%nat
      end
    | EmptyString => 0%nat
    end
  | EmptyString => 0%nat
  end.

(** A field that has been read to its end: empty fields are not fields. *)
Definition close_field (field : string) : list string :=
  match field with
  | EmptyString => []
  | _ => [field]
  end.

(** [Fields_from s skip field]: [skip] bytes of a white-space rune are still
    to be passed over, [field] is the field read so far. *)
Fixpoint Fields_from (s : string) (skip : nat) (field : string) : list string :=
  match s with
  | EmptyString => close_field field
  | String c rest =>
    match skip with
    | S k => Fields_from rest k EmptyString
    | O =>
      match space_width s with
      | O => Fields_from rest 0%nat (field +:+ String c EmptyString)
      | S k => (close_field field ++ Fields_from rest k EmptyString)%list
      end
    end
  end.

(** [strings.Fields]: the maximal runs of bytes between white space. *)
Definition Fields (s : string) : list string := Fields_from s 0%nat EmptyString.

(** [strings.Split(s, sep)] for a separator of one byte, the only use the
    package makes of it: one more piece than there are separators. *)
Fixpoint Split (s : string) (sep : ascii) : list string :=
  match s with
  | EmptyString => [EmptyString]
  | String c rest =>
    if Ascii.eqb c sep then EmptyString :: Split rest sep
    else match Split rest sep with
         | piece :: pieces => String c piece :: pieces
         | [] => [String c EmptyString]
         end
  end.

(** The verb [%d] of [fmt] on an integer. *)
Definition format_d (n : Z) : string :=
  DecimalString.NilZero.string_of_int (Z.to_int n).

(** ** The resource state reader, on a decoded snapshot *)

(** The body of the loop of [doResOnNode] over [list[0].Resources]. *)
Fixpoint doResOnNode_resources (resources : list resInfo)
    (resName nodeName : string) : bool :=
  match resources with
  | [] => false
  | res :: rest =>
    if ((Name res =? resName) && (NodeName res =? nodeName))%string then true
    else doResOnNode_resources rest resName nodeName
  end.

(** [func doResOnNode(list resList, resName, nodeName string) bool] *)
Definition doResOnNode (list : resList) (resName nodeName : string)
  : outcome bool :=
  match list !! 0%nat with
  | None => Panics index_out_of_range
  | Some first => Returns (doResOnNode_resources (Resources first) resName nodeName)
  end.

(** The loop of [doResExists] over [resources[0].Resources]. *)
Fixpoint doResExists_resources (resources : list resInfo)
    (resourceName : string) : bool :=
  match resources with
  | [] => false
  | r :: rest =>
    if (Name r =? resourceName)%string then true
    else doResExists_resources rest resourceName
  end.

(** The inner loop of [doIsClient]: [Some b] when it returns [b], [None]
    when it runs to its end. *)
Fixpoint doIsClient_volumes (volumes : list volInfo) : option bool :=
  match volumes with
  | [] => None
  | v :: rest =>
    if VlmNr v =? 0 then Some (negb (HasDisk v))
    else doIsClient_volumes rest
  end.

(** The outer loop of [doIsClient] and the [return false] after it. *)
Fixpoint doIsClient_states (states : list resState)
    (name nodeName : string) : bool :=
  match states with
  | [] => false
  | res :: rest =>
    if ((name =? RscName res) && (nodeName =? rs_NodeName res))%string then
      match doIsClient_volumes (VlmStates res) with
      | Some answer => answer
      | None => doIsClient_states rest name nodeName
      end
    else doIsClient_states rest name nodeName
  end.

(** [func (r Resource) doIsClient(list resList, nodeName string) bool] *)
Definition doIsClient (r : Resource) (list : resList) (nodeName : string)
  : outcome bool :=
  match list !! 0%nat with
  | None => Panics index_out_of_range
  | Some first =>
    Returns (doIsClient_states (ResourceStates first) (r_Name r) nodeName)
  end.

(** ** The device path resolver, on a decoded snapshot *)

(** [func doGetDevPath(vol volInfo) string] *)
Definition doGetDevPath (vol : volInfo) : string :=
  "/dev/drbd" +:+ format_d (VlmMinorNr vol).

(** How a [for ... range] statement declares its iteration variable: one
    variable for all the iterations of the statement, as Go did when the
    package was written, or one variable per iteration, as Go does from
    1.22 on in modules that ask for it.  [getDevPath] takes the address of
    such a variable, so the rule is a parameter of the model. *)
Inductive range_variable :=
| per_statement
| per_iteration.

Class Language := {
  range_variables : range_variable
}.

(** The variables [vol] of [getDevPath] can point to.  Address 0 is the
    literal [&volInfo{}]; the iteration variables [v] of the inner loop
    come after it, each at the address it is declared at. *)
Abbreviation memory := (list volInfo).

(** The inner loop.  With one variable per statement, [v] is its address:
    every iteration assigns to it, and [vol = &v] aliases it.  With one
    variable per iteration, each iteration declares a new one. *)
Fixpoint getDevPath_volumes (rule : range_variable) (volumes : list volInfo)
    (v : nat) (mem : memory) (vol : nat) : memory * nat :=
  match volumes with
  | [] => (mem, vol)
  | x :: rest =>
    match rule with
    | per_statement =>
      let mem := <[v := x]> mem in
      let vol := if VlmNr x =? 0 then v else vol in
      getDevPath_volumes rule rest v mem vol
    | per_iteration =>
      let v := length mem in
      let mem := (mem ++ [x])%list in
      let vol := if VlmNr x =? 0 then v else vol in
      getDevPath_volumes rule rest v mem vol
    end
  end.

(** The outer loop over [list[0].ResourceStates]: each execution of the
    inner [for] statement has its own variable. *)
Fixpoint getDevPath_states (rule : range_variable) (states : list resState)
    (name : string) (mem : memory) (vol : nat) : memory * nat :=
  match states with
  | [] => (mem, vol)
  | res :: rest =>
    if (name =? RscName res)%string then
      let v := length mem in
      let mem :=
        match rule with
        | per_statement => (mem ++ [volInfo_zero])%list
        | per_iteration => mem
        end in
      let '(mem, vol) := getDevPath_volumes rule (VlmStates res) v mem vol in
      getDevPath_states rule rest name mem vol
    else getDevPath_states rule rest name mem vol
  end.

(** [*vol] *)
Definition deref (mem : memory) (vol : nat) : volInfo :=
  default volInfo_zero (mem !! vol).

(** From [vol := &volInfo{}] to [*vol] after the loops. *)
Definition getDevPath_vol `{Language} (states : list resState) (name : string)
  : volInfo :=
  let '(mem, vol) :=
    getDevPath_states range_variables states name [volInfo_zero] 0%nat in
  deref mem vol.

(** What the loops leave in [*vol], without the memory.  A matching record
    with a volume numbered 0 replaces the choice: by the last entry of its
    volume list, which is what the one [v] of the statement holds in the
    end, or, with a variable per iteration, by its last volume numbered 0. *)
Definition is_volume0 (v : volInfo) : bool := VlmNr v =? 0.

Definition has_volume0 (volumes : list volInfo) : bool :=
  existsb is_volume0 volumes.

Definition decided (rule : range_variable) (volumes : list volInfo)
    (chosen : volInfo) : volInfo :=
  match rule with
  | per_statement =>
    if has_volume0 volumes then List.last volumes volInfo_zero else chosen
  | per_iteration => List.last (List.filter is_volume0 volumes) chosen
  end.

Definition chosen_volume (rule : range_variable) (states : list resState)
    (name : string) (chosen : volInfo) : volInfo :=
  fold_left
    (fun chosen res =>
       if (name =? RscName res)%string
       then decided rule (VlmStates res) chosen
       else chosen)
    states chosen.

(** ** The file system probe *)

Definition FSKey : string := "ID_FS_TYPE".

(** The loop of [doCheckFSType] over the fields and what follows it.  The
    guard [len(p) < 2] and the accesses [p[0]], [p[1]] are one match. *)
Fixpoint doCheckFSType_pairs (f : list string) (s : string)
    (blockAttrs : gmap string string) : string * option error :=
  match f with
  | [] =>
    match blockAttrs !! FSKey with
    | Some fs => (fs, None)
    | None =>
      (EmptyString,
       Some (Errorf "couldn't find %s in %s" [OString FSKey; OMap blockAttrs]))
    end
  | kv :: rest =>
    match Split kv "="%char with
    | p0 :: p1 :: _ => doCheckFSType_pairs rest s (<[p0 := p1]> blockAttrs)
    | _ =>
      (EmptyString,
       Some (Errorf "couldn't parse filesystem data from %s" [OString s]))
    end
  end.

(** [func doCheckFSType(s string) (string, error)] *)
Definition doCheckFSType (s : string) : string * option error :=
  let f := Fields s in
  if (length f =? 0)%nat then (EmptyString, None)
  else doCheckFSType_pairs f s ∅.

(** Words to state what the probe does: a token has the separator; a
    token is written [key=...]; the attributes a list of well-formed tokens
    leaves in the map. *)
Fixpoint contains (c : ascii) (s : string) : bool :=
  match s with
  | EmptyString => false
  | String c' rest => Ascii.eqb c' c || contains c rest
  end.

Definition has_key (key token : string) : bool :=
  String.prefix (key +:+ "=") token.

(** [strings.Join] with a separator of one byte. *)
Fixpoint Join (pieces : list string) (sep : ascii) : string :=
  match pieces with
  | [] => EmptyString
  | [piece] => piece
  | piece :: rest => piece +:+ String sep (Join rest sep)
  end.

Definition attributes (f : list string) (blockAttrs : gmap string string)
  : gmap string string :=
  fold_left
    (fun attrs token =>
       match Split token "="%char with
       | p0 :: p1 :: _ => <[p0 := p1]> attrs
       | _ => attrs
       end)
    f blockAttrs.

(** ** The capabilities the package runs on *)

(** [encoding/json] at the three types the package uses it at.
    [json.Unmarshal(data, &v)] on a fresh [v] is [inr v] when it returns
    [nil] and [inl err] otherwise. *)
Class Json := {
  Unmarshal_resList : string -> error + resList;
  Unmarshal_returnStatuses : string -> error + returnStatuses;
  Marshal_returnStatuses : returnStatuses -> error + string
}.

(** The host in a state [W]: [exec.Command(name, args...).CombinedOutput()],
    [os.Lstat(path)] (only its error is used) and [time.Sleep] of a number
    of seconds. *)
Class Host (W : Type) := {
  CombinedOutput : string -> list string -> W -> (string * option error) * W;
  Lstat : string -> W -> option error;
  Sleep : Z -> W -> W
}.

(** A command line: the program and its arguments. *)
Definition command : Type := string * list string.

(** The state of a run: the host, and the commands run so far in order. *)
Record run (W : Type) := mk_run {
  world : W;
  issued : list command
}.
Arguments mk_run {W} world issued.
Arguments world {W} r.
Arguments issued {W} r.

(** A call of the package: from a state to an outcome and a state. *)
Definition Go (W A : Type) : Type := run W -> outcome A * run W.

Definition ret {W A : Type} (a : A) : Go W A :=
  fun st => (Returns a, st).

Definition bind {W A B : Type} (m : Go W A) (k : A -> Go W B) : Go W B :=
  fun st =>
    match m st with
    | (Returns a, st') => k a st'
    | (Panics message, st') => (Panics message, st')
    end.

Definition lift {W A : Type} (o : outcome A) : Go W A :=
  fun st => (o, st).

Declare Scope go_scope.
Delimit Scope go_scope with go.
Notation "'let*' x ':=' m 'in' k" := (bind m (fun x => k))
  (at level 10, x pattern, m at level 100, k at level 200) : go_scope.

Definition exec {W : Type} `{Host W} (name : string) (args : list string)
  : Go W (string * option error) :=
  fun st =>
    let '(result, w) := CombinedOutput name args (world st) in
    (Returns result, mk_run w (issued st ++ [(name, args)])%list).

Definition lstat {W : Type} `{Host W} (path : string) : Go W (option error) :=
  fun st => (Returns (Lstat path (world st)), st).

Definition sleep {W : Type} `{Host W} (seconds : Z) : Go W unit :=
  fun st => (Returns tt, mk_run (Sleep seconds (world st)) (issued st)).

(** The listing query every reader runs. *)
Definition ls_rsc : list string := ["-m"; "ls-rsc"].

(** The state after a command: the host has moved on, the command is
    logged. *)
Definition ran {W : Type} `{Host W} (name : string) (args : list string)
    (st : run W) : run W :=
  mk_run (snd (CombinedOutput name args (world st)))
    (issued st ++ [(name, args)])%list.

(** The host after [k] listing queries, and the state of a run after them. *)
Definition after_listings {W : Type} `{Host W} (k : nat) (w : W) : W :=
  Nat.iter k (fun w => snd (CombinedOutput "linstor" ls_rsc w)) w.

Definition listed {W : Type} `{Host W} (k : nat) (st : run W) : run W :=
  mk_run (after_listings k (world st))
    (issued st ++ repeat ("linstor", ls_rsc) k)%list.

(** The listing query number [k] of a run from [st] prints [out]. *)
Definition prints {W : Type} `{Host W} (st : run W) (out : string) (k : nat)
  : Prop :=
  fst (CombinedOutput "linstor" ls_rsc (after_listings k (world st)))
  = (out, None).

(** The commands that create a resource on a node. *)
Definition is_create_resource (c : command) : bool :=
  match c with
  | (name, _ :: subcommand :: _) =>
    ((name =? "linstor") && (subcommand =? "create-resource"))%string
  | _ => false
  end.

(** ** The package, on its capabilities *)

(** The loop of [validate]; [s] is the whole receiver, for the message. *)
Fixpoint validate_messages `{Json} (messages s : returnStatuses)
  : option error :=
  match messages with
  | [] => None
  | message :: rest =>
    if negb (linstorSuccess (RetCode message)) then
      match Marshal_returnStatuses s with
      | inl err => Some err
      | inr msg =>
        Some (Errorf "error status from one or more linstor operations: %s"
                [OString msg])
      end
    else validate_messages rest s
  end.

(** [func (s returnStatuses) validate() error] *)
Definition validate `{Json} (s : returnStatuses) : option error :=
  validate_messages s s.

(** [func doResExists(resourceName string, resInfo []byte) (bool, error)] *)
Definition doResExists `{Json} (resourceName : string) (resInfo : string)
  : outcome (bool * option error) :=
  match Unmarshal_resList resInfo with
  | inl err =>
    Returns (false,
             Some (Errorf "couldn't Unmarshal %s :%v" [OString resInfo; OError err]))
  | inr resources =>
    match resources !! 0%nat with
    | None => Panics index_out_of_range
    | Some first =>
      Returns (doResExists_resources (Resources first) resourceName, None)
    end
  end.

Section Package.
Context {W : Type} `{Host W} `{Json} `{Language}.
Open Scope go_scope.

(** [func linstor(args ...string) error] *)
Definition linstor (args : list string) : Go W (option error) :=
  let args := "-m" :: args in
  let* (out, err) := exec "linstor" args in
  match err with
  | Some err => ret (Some (Errorf "%v : %s" [OError err; OString out]))
  | None =>
    match Unmarshal_returnStatuses out with
    | inl err =>
      ret (Some (Errorf "couldn't Unmarshal %s :%v" [OString out; OError err]))
    | inr s =>
      match validate s with
      | Some err => ret (Some err)
      | None => ret None
      end
    end
  end.

(** [func (r Resource) Exists() (bool, error)] *)
Definition Exists (r : Resource) : Go W (bool * option error) :=
  let* (out, err) := exec "linstor" ls_rsc in
  match err with
  | Some err => ret (false, Some err)
  | None => lift (doResExists (r_Name r) out)
  end.

(** [func (r Resource) OnNode(nodeName string) (bool, error)] *)
Definition OnNode (r : Resource) (nodeName : string)
  : Go W (bool * option error) :=
  let* (out, err) := exec "linstor" ls_rsc in
  match err with
  | Some err => ret (false, Some err)
  | None =>
    match Unmarshal_resList out with
    | inl err =>
      ret (false,
           Some (Errorf "couldn't Unmarshal %s :%v" [OString out; OError err]))
    | inr l =>
      let* present := lift (doResOnNode l (r_Name r) nodeName) in
      ret (present, None)
    end
  end.

(** The arguments of the two create-resource commands of [Assign]. *)
Definition create_with_storage (r : Resource) (node : string) : list string :=
  ["create-resource"; r_Name r; node; "-s"; StoragePool r].

Definition create_diskless (r : Resource) (node : string) : list string :=
  ["create-resource"; r_Name r; node; "--diskless"].

(** Either loop of [Assign]: they differ in the command, [create].  The
    result is [Some err] when the loop returns [err] from [Assign], [None]
    when it runs to its end. *)
Fixpoint Assign_nodes (r : Resource) (create : string -> list string)
    (nodes : list string) : Go W (option error) :=
  match nodes with
  | [] => ret None
  | node :: rest =>
    let* (present, err) := OnNode r node in
    match err with
    | Some err =>
      ret (Some (Errorf
        "unable to assign resource %s failed to check if it was already present on node %s: %v"
        [OString (r_Name r); OString node; OError err]))
    | None =>
      if negb present then
        let* err := linstor (create node) in
        match err with
        | Some err => ret (Some err)
        | None => Assign_nodes r create rest
        end
      else Assign_nodes r create rest
    end
  end.

(** [func (r Resource) Assign() error] *)
Definition Assign (r : Resource) : Go W (option error) :=
  let* (ok, err) := Exists r in
  match err with
  | Some err =>
    ret (Some (Errorf "Unable to determine if resource %s is defined %v"
                 [OString (r_Name r); OError err]))
  | None =>
    if negb ok then
      ret (Some (Errorf "No resource definition for resource %s"
                   [OString (r_Name r)]))
    else
      let* err := Assign_nodes r (create_with_storage r) (NodeList r) in
      match err with
      | Some err => ret (Some err)
      | None => Assign_nodes r (create_diskless r) (ClientList r)
      end
  end.

(** [func (r Resource) Create() error] *)
Definition Create (r : Resource) : Go W (option error) :=
  let* err := linstor ["create-resource-definition"; r_Name r] in
  match err with
  | Some err =>
    ret (Some (Errorf "unable to reserve resource name %s :%v"
                 [OString (r_Name r); OError err]))
  | None =>
    let* _ := sleep 2 in
    let* err :=
      linstor ["create-volume-definition"; r_Name r;
               format_d (SizeKiB r) +:+ "kib"] in
    match err with
    | Some err =>
      ret (Some (Errorf "unable to reserve resource name %s :%v"
                   [OString (r_Name r); OError err]))
    | None => ret None
    end
  end.

(** [func (r Resource) CreateAndAssign() error] *)
Definition CreateAndAssign (r : Resource) : Go W (option error) :=
  let* err := Create r in
  match err with
  | Some err => ret (Some err)
  | None =>
    let* err := Assign r in
    match err with
    | Some err => ret (Some err)
    | None => ret None
    end
  end.

(** [func (r Resource) Unassign(nodeName string) error] *)
Definition Unassign (r : Resource) (nodeName : string) : Go W (option error) :=
  let* err := linstor ["delete-resource"; r_Name r; nodeName] in
  match err with
  | Some err =>
    ret (Some (Errorf "failed to unassign resource %s from node %s: %v"
                 [OString (r_Name r); OString nodeName; OError err]))
  | None => ret None
  end.

(** [func (r Resource) Delete() error] *)
Definition Delete (r : Resource) : Go W (option error) :=
  let* err := linstor ["delete-resource-definition"; r_Name r] in
  match err with
  | Some err =>
    ret (Some (Errorf "failed to delete resource %s: %v"
                 [OString (r_Name r); OError err]))
  | None => ret None
  end.

(** [func (r Resource) IsClient(nodeName string) bool] *)
Definition IsClient (r : Resource) (nodeName : string) : Go W bool :=
  let* (out, _) := exec "linstor" ls_rsc in
  match Unmarshal_resList out with
  | inl _ => ret false
  | inr list => lift (doIsClient r list nodeName)
  end.

(** [func checkFSType(dev string) (string, error)] *)
Definition checkFSType (dev : string) : Go W (string * option error) :=
  let* (out, _) := exec "blkid" ["-o"; "udev"; dev] in
  match doCheckFSType out with
  | (_, Some err) => ret (EmptyString, Some err)
  | (FSType, None) => ret (FSType, None)
  end.

(** [func (f FSUtil) safeFormat(path string) error] *)
Definition safeFormat (f : FSUtil) (path : string) : Go W (option error) :=
  let* (deviceFS, err) := checkFSType path in
  match err with
  | Some err =>
    ret (Some (Errorf "unable to format filesystem for %q: %v"
                 [OString path; OError err]))
  | None =>
    if (deviceFS =? FSType f)%string then ret None
    else if negb (deviceFS =? "")%string && negb (deviceFS =? FSType f)%string then
      ret (Some (Errorf
        "device %q already formatted with %q filesystem, refusing to overwrite with %q filesystem"
        [OString path; OString deviceFS; OString (FSType f)]))
    else
      let* (out, err) := exec "mkfs" ["-t"; FSType f; path] in
      match err with
      | Some err =>
        ret (Some (Errorf "couldn't create %s filesystem %v: %q"
                     [OString (FSType f); OError err; OString out]))
      | None => ret None
      end
  end.

(** [func getDevPath(r Resource) (string, error)] *)
Definition getDevPath (r : Resource) : Go W (string * option error) :=
  let* (out, err) := exec "linstor" ls_rsc in
  match err with
  | Some err => ret (EmptyString, Some err)
  | None =>
    match Unmarshal_resList out with
    | inl err => ret (EmptyString, Some err)
    | inr list =>
      match list !! 0%nat with
      | None => lift (Panics index_out_of_range)
      | Some first =>
        let vol := getDevPath_vol (ResourceStates first) (r_Name r) in
        let devicePath := doGetDevPath vol in
        let* err := lstat devicePath in
        match err with
        | Some err =>
          ret (EmptyString,
               Some (Errorf "Couldn't stat %s: %v" [OString devicePath; OError err]))
        | None => ret (devicePath, None)
        end
      end
    end
  end.

(** The loop of [WaitForDevPath], with [n] iterations left. *)
Fixpoint WaitForDevPath_loop (r : Resource) (n : nat)
    (path : string) (err : option error) : Go W (string * option error) :=
  match n with
  | O => ret (path, err)
  | S n' =>
    let* (path, err) := getDevPath r in
    if negb (path =? "")%string then ret (path, err)
    else let* _ := sleep 2 in WaitForDevPath_loop r n' path err
  end.

(** [func WaitForDevPath(r Resource, maxRetries int) (string, error)] *)
Definition WaitForDevPath (r : Resource) (maxRetries : Z)
  : Go W (string * option error) :=
  WaitForDevPath_loop r (Z.to_nat maxRetries) EmptyString None.

(** [func (f FSUtil) Mount(path string) error] *)
Definition Mount (f : FSUtil) (path : string) : Go W (option error) :=
  match fs_Resource f with
  | None => lift (Panics nil_dereference)
  | Some r =>
    let* (device, err) := WaitForDevPath r 3 in
    match err with
    | Some err =>
      ret (Some (Errorf
        "unable to mount device, couldn't find Resource device path: %v"
        [OError err]))
    | None =>
      let* err := safeFormat f device in
      match err with
      | Some err =>
        ret (Some (Errorf "unable to mount device: %v" [OError err]))
      | None =>
        let* (out, err) := exec "mkdir" ["-p"; path] in
        match err with
        | Some err =>
          ret (Some (Errorf
            "unable to mount device, failed to make mount directory: %v: %s"
            [OError err; OString out]))
        | None =>
          let* (out, err) := exec "mount" [device; path] in
          match err with
          | Some err =>
            ret (Some (Errorf "unable to mount device: %v: %s"
                         [OError err; OString out]))
          | None => ret None
          end
        end
      end
    end
  end.


End Package.

(** [func EnoughFreeSpace(requestedKiB, replicas string) error] *)
Definition EnoughFreeSpace (requestedKiB replicas : string) : option error :=
  None.

(** ** A fixture: the capabilities with canned answers

    The package is run below on concrete inputs against this fixture: a
    decoder for a fragment of JSON, and a fake host that answers each
    command from a table. *)

Module JsonText.

(** A JSON value.  The fragment has no fractions, exponents, escapes,
    negative zero or bytes outside printable ASCII: a text with one of
    them, or with a key twice in one object, is refused, where
    [encoding/json] may accept it. *)
#[warnings="-register-all"]
Inductive value :=
| Null
| Bool (b : bool)
| Number (n : Z)
| Text (s : string)
| Array (items : list value)
| Object (members : list (string * value)).

Definition is_space (c : ascii) : bool :=
  let b := byte_code c in
  ((b =? 32) || (b =? 9) || (b =? 10) || (b =? 13))%N.

Definition is_digit (c : ascii) : bool :=
  let b := byte_code c in ((48 <=? b) && (b <=? 57))%N.

Definition digit_value (c : ascii) : Z := Z.of_N (byte_code c) - 48.

Fixpoint skip_space (s : string) : string :=
  match s with
  | String c rest => if is_space c then skip_space rest else s
  | EmptyString => s
  end.

(** The bytes of a string literal after its opening quote. *)
Fixpoint scan_text (s : string) : option (string * string) :=
  match s with
  | EmptyString => None
  | String c rest =>
    let b := byte_code c in
    if (b =? 34)%N then Some (EmptyString, rest)
    else if ((b =? 92) || (b <? 32) || (126 <? b))%N then None
    else match scan_text rest with
         | Some (text, rest') => Some (String c text, rest')
         | None => None
         end
  end.

(** The digits [s] starts with, as the number they continue [acc] to. *)
Fixpoint scan_digits (s : string) (acc : Z) : Z * string :=
  match s with
  | String c rest =>
    if is_digit c then scan_digits rest (10 * acc + digit_value c)
    else (acc, s)
  | EmptyString => (acc, s)
  end.

(** An integer literal without its sign: [0], or digits that do not start
    with 0; no fraction or exponent may follow. *)
Definition scan_natural (s : string) : option (Z * string) :=
  match s with
  | String c rest =>
    if is_digit c then
      let '(n, rest') :=
        if (byte_code c =? 48)%N then (0, rest)
        else scan_digits rest (digit_value c) in
      match rest' with
      | String d _ =>
        let b := byte_code d in
        if (is_digit d || (b =? 46) || (b =? 69) || (b =? 101))%N then None
        else Some (n, rest')
      | EmptyString => Some (n, rest')
      end
    else None
  | EmptyString => None
  end.

(** [s] without the prefix [word], when it starts with it. *)
Fixpoint after (word s : string) : option string :=
  match word, s with
  | EmptyString, _ => Some s
  | String a word', String b s' =>
    if Ascii.eqb a b then after word' s' else None
  | String _ _, EmptyString => None
  end.

(** A value and the text after it; the items of an array after its first
    bracket or a comma; the members of an object likewise.  Every call
    reads at least one byte, so [fuel] above the length of the text is
    enough. *)
Fixpoint parse_value (fuel : nat) (s : string) : option (value * string) :=
  match fuel with
  | O => None
  | S fuel =>
    match skip_space s with
    | EmptyString => None
    | String c rest =>
      let b := byte_code c in
      if (b =? 34)%N then
        match scan_text rest with
        | Some (text, rest') => Some (Text text, rest')
        | None => None
        end
      else if (b =? 45)%N then
        match scan_natural rest with
        | Some (n, rest') => if n =? 0 then None else Some (Number (- n), rest')
        | None => None
        end
      else if is_digit c then
        match scan_natural (String c rest) with
        | Some (n, rest') => Some (Number n, rest')
        | None => None
        end
      else if (b =? 91)%N then
        match skip_space rest with
        | String d rest' =>
          if (byte_code d =? 93)%N then Some (Array [], rest')
          else parse_items fuel rest []
        | EmptyString => None
        end
      else if (b =? 123)%N then
        match skip_space rest with
        | String d rest' =>
          if (byte_code d =? 125)%N then Some (Object [], rest')
          else parse_members fuel rest []
        | EmptyString => None
        end
      else
        match after "null" (String c rest) with
        | Some rest' => Some (Null, rest')
        | None =>
          match after "true" (String c rest) with
          | Some rest' => Some (Bool true, rest')
          | None =>
            match after "false" (String c rest) with
            | Some rest' => Some (Bool false, rest')
            | None => None
            end
          end
        end
    end
  end
with parse_items (fuel : nat) (s : string) (seen : list value)
  : option (value * string) :=
  match fuel with
  | O => None
  | S fuel =>
    match parse_value fuel s with
    | Some (item, rest) =>
      match skip_space rest with
      | String c rest' =>
        if (byte_code c =? 44)%N then parse_items fuel rest' (seen ++ [item])%list
        else if (byte_code c =? 93)%N then Some (Array (seen ++ [item])%list, rest')
        else None
      | EmptyString => None
      end
    | None => None
    end
  end
with parse_members (fuel : nat) (s : string) (seen : list (string * value))
  : option (value * string) :=
  match fuel with
  | O => None
  | S fuel =>
    match skip_space s with
    | String q rest =>
      if (byte_code q =? 34)%N then
        match scan_text rest with
        | Some (key, rest1) =>
          match skip_space rest1 with
          | String colon rest2 =>
            if (byte_code colon =? 58)%N then
              match parse_value fuel rest2 with
              | Some (item, rest3) =>
                match skip_space rest3 with
                | String c rest4 =>
                  if (byte_code c =? 44)%N
                  then parse_members fuel rest4 (seen ++ [(key, item)])%list
                  else if (byte_code c =? 125)%N
                  then Some (Object (seen ++ [(key, item)])%list, rest4)
                  else None
                | EmptyString => None
                end
              | None => None
              end
            else None
          | EmptyString => None
          end
        | None => None
        end
      else None
    | EmptyString => None
    end
  end.

(** A whole text: one value, white space around it. *)
Definition parse (s : string) : option value :=
  match parse_value (S (String.length s)) s with
  | Some (v, rest) =>
    match skip_space rest with
    | EmptyString => Some v
    | _ => None
    end
  | None => None
  end.

(** Decoding a value into the types of the package, as [encoding/json]
    does: [null] leaves the zero value, a key selects the field whose tag
    it equals up to the case of its letters, other keys are skipped, and a
    value of the wrong kind or out of range is an error. *)

Definition syntax_error : error := Foreign "json: invalid or unsupported text".
Definition mismatch : error := Foreign "json: cannot unmarshal value into Go value".

Definition and_then {A B : Type} (m : error + A) (k : A -> error + B)
  : error + B :=
  match m with
  | inl err => inl err
  | inr a => k a
  end.

Notation "'let?' x ':=' m 'in' k" := (and_then m (fun x => k))
  (at level 10, x pattern, m at level 100, k at level 200).

Definition lower (c : ascii) : ascii :=
  let b := byte_code c in
  if ((65 <=? b) && (b <=? 90))%N then ascii_of_N (b + 32) else c.

Fixpoint lower_all (s : string) : string :=
  match s with
  | String c rest => String (lower c) (lower_all rest)
  | EmptyString => EmptyString
  end.

Fixpoint member (tag : string) (members : list (string * value))
  : option value :=
  match members with
  | [] => None
  | (key, v) :: rest =>
    if (lower_all key =? tag)%string then Some v else member tag rest
  end.

Fixpoint distinct_keys (members : list (string * value)) : bool :=
  match members with
  | [] => true
  | (key, _) :: rest =>
    match member (lower_all key) rest with
    | Some _ => false
    | None => distinct_keys rest
    end
  end.

Definition as_string (v : value) : error + string :=
  match v with
  | Text s => inr s
  | Null => inr EmptyString
  | _ => inl mismatch
  end.

Definition as_bool (v : value) : error + bool :=
  match v with
  | Bool b => inr b
  | Null => inr false
  | _ => inl mismatch
  end.

Definition as_int (v : value) : error + Z :=
  match v with
  | Number n =>
    if (- 2 ^ 63 <=? n) && (n <? 2 ^ 63) then inr n else inl mismatch
  | Null => inr 0
  | _ => inl mismatch
  end.

Definition as_uint64 (v : value) : error + Z :=
  match v with
  | Number n => if (0 <=? n) && (n <? 2 ^ 64) then inr n else inl mismatch
  | Null => inr 0
  | _ => inl mismatch
  end.

Fixpoint each {A : Type} (f : value -> error + A) (items : list value)
  : error + list A :=
  match items with
  | [] => inr []
  | item :: rest =>
    let? a := f item in
    let? others := each f rest in
    inr (a :: others)
  end.

Definition as_list {A : Type} (f : value -> error + A) (v : value)
  : error + list A :=
  match v with
  | Array items => each f items
  | Null => inr []
  | _ => inl mismatch
  end.

Definition as_struct {A : Type} (zero : A)
    (fields : list (string * value) -> error + A) (v : value) : error + A :=
  match v with
  | Object members =>
    if distinct_keys members then fields members else inl syntax_error
  | Null => inr zero
  | _ => inl mismatch
  end.

Definition field {A : Type} (members : list (string * value)) (tag : string)
    (f : value -> error + A) (zero : A) : error + A :=
  match member tag members with
  | Some v => f v
  | None => inr zero
  end.

Definition as_keyValue : value -> error + keyValue :=
  as_struct (mk_keyValue EmptyString EmptyString) (fun ms =>
    let? v := field ms "value" as_string EmptyString in
    let? k := field ms "key" as_string EmptyString in
    inr (mk_keyValue v k)).

Definition as_volInfo : value -> error + volInfo :=
  as_struct volInfo_zero (fun ms =>
    let? has_disk := field ms "has_disk" as_bool false in
    let? check_meta_data := field ms "check_meta_data" as_bool false in
    let? has_meta_data := field ms "has_meta_data" as_bool false in
    let? is_present := field ms "is_present" as_bool false in
    let? disk_failed := field ms "disk_failed" as_bool false in
    let? net_size := field ms "net_size" as_int 0 in
    let? vlm_minor_nr := field ms "vlm_minor_nr" as_int 0 in
    let? gross_size := field ms "gross_size" as_int 0 in
    let? vlm_nr := field ms "vlm_nr" as_int 0 in
    inr (mk_volInfo has_disk check_meta_data has_meta_data is_present
           disk_failed net_size vlm_minor_nr gross_size vlm_nr)).

Definition as_resVlm : value -> error + resVlm :=
  as_struct (mk_resVlm 0 EmptyString EmptyString 0 EmptyString EmptyString)
    (fun ms =>
    let? vlm_nr := field ms "vlm_nr" as_int 0 in
    let? stor_pool_name := field ms "stor_pool_name" as_string EmptyString in
    let? stor_pool_uuid := field ms "stor_pool_uuid" as_string EmptyString in
    let? vlm_minor_nr := field ms "vlm_minor_nr" as_int 0 in
    let? vlm_uuid := field ms "vlm_uuid" as_string EmptyString in
    let? vlm_dfn_uuid := field ms "vlm_dfn_uuid" as_string EmptyString in
    inr (mk_resVlm vlm_nr stor_pool_name stor_pool_uuid vlm_minor_nr
           vlm_uuid vlm_dfn_uuid)).

Definition as_resInfo : value -> error + resInfo :=
  as_struct
    (mk_resInfo [] EmptyString EmptyString EmptyString [] EmptyString
       EmptyString [])
    (fun ms =>
    let? vlms := field ms "vlms" (as_list as_resVlm) [] in
    let? node_uuid := field ms "node_uuid" as_string EmptyString in
    let? uuid := field ms "uuid" as_string EmptyString in
    let? node_name := field ms "node_name" as_string EmptyString in
    let? props := field ms "props" (as_list as_keyValue) [] in
    let? rsc_dfn_uuid := field ms "rsc_dfn_uuid" as_string EmptyString in
    let? name := field ms "name" as_string EmptyString in
    let? rsc_flags := field ms "rsc_flags" (as_list as_string) [] in
    inr (mk_resInfo vlms node_uuid uuid node_name props rsc_dfn_uuid name
           rsc_flags)).

Definition as_resState : value -> error + resState :=
  as_struct (mk_resState false EmptyString false [] false EmptyString)
    (fun ms =>
    let? requires_adjust := field ms "requires_adjust" as_bool false in
    let? rsc_name := field ms "rsc_name" as_string EmptyString in
    let? is_primary := field ms "is_primary" as_bool false in
    let? vlm_states := field ms "vlm_states" (as_list as_volInfo) [] in
    let? is_present := field ms "is_present" as_bool false in
    let? node_name := field ms "node_name" as_string EmptyString in
    inr (mk_resState requires_adjust rsc_name is_primary vlm_states
           is_present node_name)).

Definition as_resListEntry : value -> error + resListEntry :=
  as_struct (mk_resListEntry [] []) (fun ms =>
    let? resource_states :=
      field ms "resource_states" (as_list as_resState) [] in
    let? resources := field ms "resources" (as_list as_resInfo) [] in
    inr (mk_resListEntry resource_states resources)).

Definition as_returnStatus : value -> error + returnStatus :=
  as_struct (mk_returnStatus EmptyString EmptyString EmptyString [] [] 0)
    (fun ms =>
    let? details_format := field ms "details_format" as_string EmptyString in
    let? message_format := field ms "message_format" as_string EmptyString in
    let? cause_format := field ms "cause_format" as_string EmptyString in
    let? obj_refs := field ms "obj_refs" (as_list as_keyValue) [] in
    let? variables := field ms "variables" (as_list as_keyValue) [] in
    let? ret_code := field ms "ret_code" as_uint64 0 in
    inr (mk_returnStatus details_format message_format cause_format
           obj_refs variables ret_code)).

Definition unmarshal {A : Type} (f : value -> error + A) (data : string)
  : error + A :=
  match parse data with
  | Some v => f v
  | None => inl syntax_error
  end.

End JsonText.

Module Fixture.

(** [text s] is [s] with every apostrophe read as a double quote, to write
    JSON down. *)
Fixpoint text (s : string) : string :=
  match s with
  | String c rest =>
    String (if (byte_code c =? 39)%N then ascii_of_N 34 else c) (text rest)
  | EmptyString => EmptyString
  end.

(** The decoder of the fixture.  No run of the fixture has a failing
    status, so none reaches [json.Marshal]: it is left unanswered. *)
#[export] Instance json : Json := {|
  Unmarshal_resList := JsonText.unmarshal (JsonText.as_list JsonText.as_resListEntry);
  Unmarshal_returnStatuses :=
    JsonText.unmarshal (JsonText.as_list JsonText.as_returnStatus);
  Marshal_returnStatuses := fun _ => inl (Foreign "json: not in the fixture")
|}.

(** The Go of the time of the package. *)
#[export] Instance language : Language := {|
  range_variables := per_statement
|}.

(** The fake host: what the listing query prints, what the probe of any
    device prints, the paths that exist, and the seconds slept so far. *)
Record plane := mk_plane {
  listing : string;
  probe : string;
  paths : list string;
  clock : Z
}.

Definition same_args (a b : list string) : bool :=
  bool_decide (a = b).

(** Every other control-plane command is answered with an empty status
    array; [blkid] exits with an error when it prints nothing; [mkfs -t T]
    makes the probe print T; [mkdir], [mount], [umount], [test] and
    [findmnt] succeed silently. *)
Definition run_command (name : string) (args : list string) (w : plane)
  : (string * option error) * plane :=
  if (name =? "linstor")%string then
    if same_args args ls_rsc then ((listing w, None), w)
    else (("[]", None), w)
  else if (name =? "blkid")%string then
    ((probe w,
      if (probe w =? "")%string then Some (Foreign "exit status 2") else None),
     w)
  else if (name =? "mkfs")%string then
    match args with
    | [_; fstype; _] =>
      ((EmptyString, None),
       mk_plane (listing w) ("ID_FS_TYPE=" +:+ fstype) (paths w) (clock w))
    | _ => ((EmptyString, Some (Foreign "exit status 1")), w)
    end
  else if existsb (String.eqb name) ["mkdir"; "mount"; "umount"; "test"; "findmnt"]
  then ((EmptyString, None), w)
  else ((EmptyString, Some (Foreign "exec: executable file not found")), w).

#[export] Instance host : Host plane := {|
  CombinedOutput := run_command;
  Lstat := fun path w =>
    if existsb (String.eqb path) (paths w) then None
    else Some (Foreign "lstat: no such file or directory");
  Sleep := fun seconds w =>
    mk_plane (listing w) (probe w) (paths w) (clock w + seconds)
|}.

Definition start (w : plane) : run plane := mk_run w [].

Definition decoded (data : string) : error + resList :=
  Unmarshal_resList data.

(** Records with the fields the readers look at. *)
Definition volume (nr minor : Z) (has_disk : bool) : volInfo :=
  mk_volInfo has_disk false false false false 0 minor 0 nr.

Definition state (name node : string) (volumes : list volInfo) : resState :=
  mk_resState false name false volumes false node.

Definition definition (name node : string) : resInfo :=
  mk_resInfo [] EmptyString EmptyString node [] EmptyString name [].

(** Resource r0: a replica on node alpha (minor 7), a diskless client on
    node beta (minor 9). *)
Definition two_nodes : string := text
  "[{'resource_states':[
      {'rsc_name':'r0','node_name':'alpha',
       'vlm_states':[{'vlm_nr':0,'vlm_minor_nr':7,'has_disk':true}]},
      {'rsc_name':'r0','node_name':'beta',
       'vlm_states':[{'vlm_nr':0,'vlm_minor_nr':9,'has_disk':false}]}],
     'resources':[
      {'name':'r0','node_name':'alpha'},
      {'name':'r0','node_name':'beta'}]}]".

Definition two_nodes_list : resList :=
  [mk_resListEntry
     [state "r0" "alpha" [volume 0 7 true];
      state "r0" "beta" [volume 0 9 false]]
     [definition "r0" "alpha"; definition "r0" "beta"]].

(** Resource r0 on node alpha alone. *)
Definition one_node : string := text
  "[{'resource_states':[
      {'rsc_name':'r0','node_name':'alpha',
       'vlm_states':[{'vlm_nr':0,'vlm_minor_nr':7,'has_disk':true}]}],
     'resources':[{'name':'r0','node_name':'alpha'}]}]".

Definition one_node_list : resList :=
  [mk_resListEntry [state "r0" "alpha" [volume 0 7 true]]
     [definition "r0" "alpha"]].

(** No resource at all: one object without records. *)
Definition no_resources : string := "[{}]".

Definition no_resources_list : resList := [mk_resListEntry [] []].

(** Two top-level objects: r0 is in the second only. *)
Definition second_object : string := text
  "[{'resources':[]},
    {'resource_states':[
       {'rsc_name':'r0','node_name':'alpha',
        'vlm_states':[{'vlm_nr':0,'vlm_minor_nr':7,'has_disk':false}]}],
     'resources':[{'name':'r0','node_name':'alpha'}]}]".

Definition second_object_list : resList :=
  [mk_resListEntry [] [];
   mk_resListEntry [state "r0" "alpha" [volume 0 7 false]]
     [definition "r0" "alpha"]].

Definition r0 : Resource :=
  mk_Resource "r0" "alpha" "2" ["alpha"] ["beta"] "pool" 1048576.

End Fixture.

(** ** Words for the runs of the life cycle *)

(** The state after a sleep of [seconds]. *)
Definition slept {W : Type} `{Host W} (seconds : Z) (st : run W) : run W :=
  mk_run (Sleep seconds (world st)) (issued st).

(** A poll attempt that did not end the polling: the listing query, and
    the pause of two seconds after it. *)
Definition failed_attempt {W : Type} `{Host W} (st : run W) : run W :=
  slept 2 (ran "linstor" ls_rsc st).

(** A reply [linstor] takes for success: the command exits without error,
    its output decodes to statuses, and every status passes
    [linstorSuccess]. *)
Definition accepted `{Json} (reply : string * option error) : Prop :=
  exists out s,
    reply = (out, None)
    /\ Unmarshal_returnStatuses out = inr s
    /\ forall message, In message s -> linstorSuccess (RetCode message) = true.


Module Outage.

(** A host in trouble.  Its state is the text the control plane prints and
    whether the listing query still goes through: the listing query exits
    without error only then, every other command exits with an error, and
    no path exists. *)
#[export] Instance host : Host (string * bool) := {|
  CombinedOutput := fun name args w =>
    if snd w && (name =? "linstor")%string && Fixture.same_args args ls_rsc
    then ((fst w, None), w)
    else ((fst w, Some (Foreign "exit status 1")), w);
  Lstat := fun _ _ => Some (Foreign "lstat: no such file or directory");
  Sleep := fun _ w => w
|}.


End Outage.

(** * Properties *)

(** ** The status validator *)

Lemma severity_mask_value :
  Z.lor (Z.lor maskError maskWarn) maskInfo = Z.lor (2 ^ 63) (2 ^ 62).
Proof. reflexivity. Qed.

Lemma severity_mask_testbit (n : Z) :
  Z.testbit (Z.lor (Z.lor maskError maskWarn) maskInfo) n
  = (n =? 63) || (n =? 62).
Proof.
  rewrite severity_mask_value, Z.lor_spec.
  rewrite !Z.pow2_bits_eqb by lia.
  now rewrite (Z.eqb_sym 63 n), (Z.eqb_sym 62 n).
Qed.

(** C1, as amended.  For every return code [r], [linstorSuccess r] is true
    exactly when bits 63 and 62 of [r] are both clear, that is when
    [r AND 0xC000000000000000] is 0.  The three masks of the code are
    bits 63 and 62 together (error), bit 63 (warning) and bit 62 (info);
    bit 61 is not inspected. *)
Theorem linstorSuccess_iff_top_two_bits_clear (r : Z) :
  (linstorSuccess r = true <-> Z.land r 0xC000000000000000 = 0)
  /\ (linstorSuccess r = true <->
      Z.testbit r 63 = false /\ Z.testbit r 62 = false).
Proof.
  unfold linstorSuccess.
  split.
  - rewrite Z.eqb_eq. reflexivity.
  - rewrite Z.eqb_eq. split.
    + intros Hland.
      assert (Hbit : forall n, Z.testbit r n
                && Z.testbit (Z.lor (Z.lor maskError maskWarn) maskInfo) n = false).
      { intros n. rewrite <- Z.land_spec, Hland. apply Z.bits_0. }
      split.
      * specialize (Hbit 63). rewrite severity_mask_testbit in Hbit.
        simpl in Hbit. rewrite andb_true_r in Hbit. exact Hbit.
      * specialize (Hbit 62). rewrite severity_mask_testbit in Hbit.
        simpl in Hbit. rewrite andb_true_r in Hbit. exact Hbit.
    + intros [H63 H62].
      apply Z.bits_inj'. intros n _.
      rewrite Z.land_spec, severity_mask_testbit, Z.bits_0.
      destruct (Z.eqb_spec n 63) as [->|_]; [rewrite H63; reflexivity|].
      destruct (Z.eqb_spec n 62) as [->|_]; [rewrite H62; reflexivity|].
      apply andb_false_r.
Qed.

(** C1, counterexample.  The code with only bit 61 set is a 64-bit value
    with the info bit of the specification set, and [linstorSuccess]
    accepts it. *)
Lemma linstorSuccess_accepts_bit61 :
  0 <= Z.shiftl 1 61 < 2 ^ 64
  /\ Z.land (Z.shiftl 1 61)
       (Z.lor (Z.lor spec_errorBit spec_warnBit) spec_infoBit) <> 0
  /\ linstorSuccess (Z.shiftl 1 61) = true.
Proof. repeat split; vm_compute; congruence. Qed.

(** The boundary values: only codes with bit 63 or bit 62 set fail. *)
Example linstorSuccess_boundaries :
  linstorSuccess 0 = true
  /\ linstorSuccess (Z.shiftl 1 63) = false
  /\ linstorSuccess (Z.shiftl 1 62) = false
  /\ linstorSuccess (2 ^ 64 - 1) = false
  /\ linstorSuccess (2 ^ 62 - 1) = true.
Proof. repeat split. Qed.

(** ** The readers, on a decoded snapshot *)

Lemma doResOnNode_resources_true (resources : list resInfo)
    (resName nodeName : string) :
  doResOnNode_resources resources resName nodeName = true <->
  exists res, In res resources /\ Name res = resName /\ NodeName res = nodeName.
Proof.
  induction resources as [|res rest IH]; simpl.
  - split; [discriminate | intros (? & [] & _)].
  - destruct (String.eqb_spec (Name res) resName) as [Hname|Hname];
      destruct (String.eqb_spec (NodeName res) nodeName) as [Hnode|Hnode];
      simpl.
    + split; [|reflexivity]. intros _. exists res. auto.
    + rewrite IH. split.
      * intros (res' & Hin & Hmatch). exists res'. auto.
      * intros (res' & [<-|Hin] & Hn & Hd); [contradiction|]. exists res'. auto.
    + rewrite IH. split.
      * intros (res' & Hin & Hmatch). exists res'. auto.
      * intros (res' & [<-|Hin] & Hn & Hd); [contradiction|]. exists res'. auto.
    + rewrite IH. split.
      * intros (res' & Hin & Hmatch). exists res'. auto.
      * intros (res' & [<-|Hin] & Hn & Hd); [contradiction|]. exists res'. auto.
Qed.

Lemma doResOnNode_resources_false (resources : list resInfo)
    (resName nodeName : string) :
  doResOnNode_resources resources resName nodeName = false <->
  forall res, In res resources ->
    ~ (Name res = resName /\ NodeName res = nodeName).
Proof.
  rewrite <- not_true_iff_false, doResOnNode_resources_true.
  split.
  - intros Hnone res Hin Hmatch. apply Hnone. exists res. tauto.
  - intros Hall (res & Hin & Hmatch). exact (Hall res Hin Hmatch).
Qed.

(** On a listing with a first element none of whose records has both the
    name and the node, the answer is false. *)
Lemma doResOnNode_false (list : resList) (resName nodeName : string)
    (first : resListEntry) :
  list !! 0%nat = Some first ->
  (forall res, In res (Resources first) -> Name res = resName ->
     NodeName res <> nodeName) ->
  doResOnNode list resName nodeName = Returns false.
Proof.
  unfold doResOnNode. intros -> Hother. f_equal.
  apply doResOnNode_resources_false. intros res Hin [Hname Hnode].
  exact (Hother res Hin Hname Hnode).
Qed.

(** C10.  [doResOnNode] returns true only when one and the same
    resource-definition record of the snapshot matches both the name and
    the node; when the snapshot has a record with the name on a different
    node, and its records with the name are all on different nodes, the
    answer is false. *)
Theorem doResOnNode_needs_one_record (list : resList)
    (resName nodeName : string) :
  (doResOnNode list resName nodeName = Returns true <->
   exists first res, list !! 0%nat = Some first /\ In res (Resources first)
     /\ Name res = resName /\ NodeName res = nodeName)
  /\ ((exists res, In res (concat (map Resources list))
         /\ Name res = resName /\ NodeName res <> nodeName) ->
      (forall res, In res (concat (map Resources list)) ->
         Name res = resName -> NodeName res <> nodeName) ->
      doResOnNode list resName nodeName = Returns false).
Proof.
  split.
  - unfold doResOnNode. destruct (list !! 0%nat) as [first|].
    + split.
      * intros Hret. injection Hret as Hloop.
        apply doResOnNode_resources_true in Hloop as (res & Hin & Hmatch).
        exists first, res. auto.
      * intros (first' & res & Hfirst & Hin & Hmatch).
        injection Hfirst as <-. f_equal.
        apply doResOnNode_resources_true. exists res. auto.
    + split; [discriminate|]. intros (? & ? & Hfirst & _). discriminate.
  - intros (res0 & Hin0 & _) Hother.
    destruct list as [|first rest]; [destruct Hin0|].
    apply (doResOnNode_false (first :: rest) resName nodeName first eq_refl).
    intros res Hin. apply Hother. cbn [map concat].
    apply in_or_app. now left.
Qed.

(** C10, witness: r0 is on alpha and beta; asked for gamma, every record
    with its name sits on a different node. *)
Lemma doResOnNode_needs_one_record_witness :
  doResOnNode Fixture.two_nodes_list "r0" "gamma" = Returns false.
Proof.
  apply (proj2 (doResOnNode_needs_one_record Fixture.two_nodes_list
                  "r0" "gamma")).
  - exists (Fixture.definition "r0" "alpha"). simpl.
    split; [now left|]. split; [reflexivity | discriminate].
  - simpl. intros res [<-|[<-|[]]] _; simpl; discriminate.
Defined.

(** On the two-node listing r0 is on alpha and on beta, r1 nowhere. *)
Example doResOnNode_runs :
  doResOnNode Fixture.two_nodes_list "r0" "alpha" = Returns true
  /\ doResOnNode Fixture.two_nodes_list "r0" "beta" = Returns true
  /\ doResOnNode Fixture.two_nodes_list "r1" "alpha" = Returns false.
Proof. repeat split. Qed.

Lemma doIsClient_volumes_some (volumes : list volInfo) (answer : bool) :
  doIsClient_volumes volumes = Some answer ->
  exists v, In v volumes /\ VlmNr v = 0 /\ answer = negb (HasDisk v).
Proof.
  induction volumes as [|v rest IH]; simpl; [discriminate|].
  destruct (Z.eqb_spec (VlmNr v) 0) as [Hnr|Hnr].
  - intros [= <-]. exists v. auto.
  - intros Hrest. destruct (IH Hrest) as (v' & Hin & Hv'). exists v'. auto.
Qed.

Lemma doIsClient_volumes_none (volumes : list volInfo) :
  doIsClient_volumes volumes = None ->
  forall v, In v volumes -> VlmNr v <> 0.
Proof.
  induction volumes as [|v rest IH]; simpl; [intros _ ? []|].
  destruct (Z.eqb_spec (VlmNr v) 0) as [Hnr|Hnr]; [discriminate|].
  intros Hrest v' [<-|Hin]; auto.
Qed.

(** What the two loops of [doIsClient] compute: the negated [HasDisk] of a
    volume 0 of a matching record, or false when there is none. *)
Lemma doIsClient_states_cases (states : list resState) (name nodeName : string) :
  (doIsClient_states states name nodeName = false
   /\ forall res v, In res states ->
        name = RscName res -> nodeName = rs_NodeName res ->
        In v (VlmStates res) -> VlmNr v <> 0)
  \/ (exists res v, In res states
        /\ name = RscName res /\ nodeName = rs_NodeName res
        /\ In v (VlmStates res) /\ VlmNr v = 0
        /\ doIsClient_states states name nodeName = negb (HasDisk v)).
Proof.
  induction states as [|res rest IH]; simpl.
  - left. split; [reflexivity|]. intros ? ? [].
  - destruct (String.eqb_spec name (RscName res)) as [Hname|Hname];
      destruct (String.eqb_spec nodeName (rs_NodeName res)) as [Hnode|Hnode];
      simpl.
    + destruct (doIsClient_volumes (VlmStates res)) as [answer|] eqn:Hvols.
      * right. apply doIsClient_volumes_some in Hvols as (v & Hin & Hnr & ->).
        exists res, v. auto 10.
      * destruct IH as [[Hfalse Hnone]|(res' & v & Hin & Hrest)].
        -- left. split; [exact Hfalse|].
           intros res' v [<-|Hin] Hn Hd Hv.
           ++ exact (doIsClient_volumes_none _ Hvols v Hv).
           ++ exact (Hnone res' v Hin Hn Hd Hv).
        -- right. exists res', v. tauto.
    + destruct IH as [[Hfalse Hnone]|(res' & v & Hin & Hrest)].
      * left. split; [exact Hfalse|].
        intros res' v [<-|Hin] Hn Hd Hv; [contradiction|eauto].
      * right. exists res', v. tauto.
    + destruct IH as [[Hfalse Hnone]|(res' & v & Hin & Hrest)].
      * left. split; [exact Hfalse|].
        intros res' v [<-|Hin] Hn Hd Hv; [contradiction|eauto].
      * right. exists res', v. tauto.
    + destruct IH as [[Hfalse Hnone]|(res' & v & Hin & Hrest)].
      * left. split; [exact Hfalse|].
        intros res' v [<-|Hin] Hn Hd Hv; [contradiction|eauto].
      * right. exists res', v. tauto.
Qed.

(** C9, as amended.  For a decoded listing that has a first element,
    [doIsClient] reads the resource-state records of that element.  When
    the record matching both name and node has a volume 0 and [HasDisk] of
    its volume 0 is [b], the answer is the negation of [b]: true for a
    volume without disk, false for one with a disk.  When no record, or no
    volume 0, matches the pair, the answer is false. *)
Theorem doIsClient_first_element (r : Resource) (list : resList)
    (nodeName : string) (first : resListEntry) :
  list !! 0%nat = Some first ->
  (forall b : bool,
     (exists res v, In res (ResourceStates first)
        /\ r_Name r = RscName res /\ nodeName = rs_NodeName res
        /\ In v (VlmStates res) /\ VlmNr v = 0) ->
     (forall res v, In res (ResourceStates first) ->
        r_Name r = RscName res -> nodeName = rs_NodeName res ->
        In v (VlmStates res) -> VlmNr v = 0 -> HasDisk v = b) ->
     doIsClient r list nodeName = Returns (negb b))
  /\ ((forall res v, In res (ResourceStates first) ->
        r_Name r = RscName res -> nodeName = rs_NodeName res ->
        In v (VlmStates res) -> VlmNr v <> 0) ->
      doIsClient r list nodeName = Returns false).
Proof.
  intros Hfirst. unfold doIsClient. rewrite Hfirst.
  destruct (doIsClient_states_cases (ResourceStates first) (r_Name r) nodeName)
    as [[Hfalse Hnone]|(res & v & Hin & Hname & Hnode & Hv & Hnr & Hanswer)].
  - split.
    + intros b (res & v & Hin & Hname & Hnode & Hv & Hnr) _.
      destruct (Hnone res v Hin Hname Hnode Hv Hnr).
    + intros _. now rewrite Hfalse.
  - split.
    + intros b _ Hsame. rewrite Hanswer.
      now rewrite (Hsame res v Hin Hname Hnode Hv Hnr).
    + intros Hnone. destruct (Hnone res v Hin Hname Hnode Hv Hnr).
Qed.

(** C9, counterexample.  On the empty listing no record matches any pair,
    and [doIsClient] does not return false: it panics.  And a record for
    (r0, alpha) whose volume 0 has no disk, in a second top-level element,
    is not read: the answer is false. *)
Lemma doIsClient_first_element_only :
  (doIsClient Fixture.r0 [] "alpha" = Panics index_out_of_range
   /\ doIsClient Fixture.r0 [] "alpha" <> Returns false)
  /\ (Fixture.second_object_list !! 1%nat
      = Some (mk_resListEntry
                [Fixture.state "r0" "alpha" [Fixture.volume 0 7 false]]
                [Fixture.definition "r0" "alpha"])
      /\ doIsClient Fixture.r0 Fixture.second_object_list "alpha"
         = Returns false).
Proof. repeat split; discriminate. Qed.

(** The fixture decodes its listings to the records they write down. *)
Example fixture_listings_decoded :
  Fixture.decoded Fixture.two_nodes = inr Fixture.two_nodes_list
  /\ Fixture.decoded Fixture.one_node = inr Fixture.one_node_list
  /\ Fixture.decoded Fixture.no_resources = inr Fixture.no_resources_list
  /\ Fixture.decoded Fixture.second_object = inr Fixture.second_object_list
  /\ Fixture.decoded "[]" = inr []
  /\ Fixture.decoded "null" = inr []
  /\ (exists err, Fixture.decoded "{}" = inl err)
  /\ (exists err, Fixture.decoded "[{" = inl err).
Proof.
  repeat split; try (vm_compute; reflexivity);
    eexists; vm_compute; reflexivity.
Qed.

(** C9, witness: on the two-node listing r0 is a client on beta, where its
    volume 0 has no disk. *)
Lemma doIsClient_first_element_witness :
  Fixture.two_nodes_list !! 0%nat
    = Some (mk_resListEntry
              [Fixture.state "r0" "alpha" [Fixture.volume 0 7 true];
               Fixture.state "r0" "beta" [Fixture.volume 0 9 false]]
              [Fixture.definition "r0" "alpha"; Fixture.definition "r0" "beta"])
  /\ doIsClient Fixture.r0 Fixture.two_nodes_list "beta" = Returns (negb false).
Proof.
  split; [reflexivity|].
  apply (proj1 (doIsClient_first_element Fixture.r0 Fixture.two_nodes_list
                  "beta" _ eq_refl) false).
  - exists (Fixture.state "r0" "beta" [Fixture.volume 0 9 false]),
      (Fixture.volume 0 9 false).
    simpl. tauto.
  - simpl. intros res v [<-|[<-|[]]] _ Hnode; simpl in *; [discriminate|].
    intros [<-|[]] _. reflexivity.
Defined.

(** On the two-node listing r0 is no client on alpha, where volume 0 has a
    disk; a record in a second top-level object is not read. *)
Example doIsClient_runs :
  doIsClient Fixture.r0 Fixture.two_nodes_list "alpha" = Returns false
  /\ doIsClient Fixture.r0 Fixture.two_nodes_list "gamma" = Returns false
  /\ doIsClient Fixture.r0 Fixture.second_object_list "alpha" = Returns false.
Proof. repeat split. Qed.

Lemma doResExists_resources_true (resources : list resInfo)
    (resourceName : string) :
  doResExists_resources resources resourceName = true <->
  exists r, In r resources /\ Name r = resourceName.
Proof.
  induction resources as [|r rest IH]; simpl.
  - split; [discriminate | intros (? & [] & _)].
  - destruct (String.eqb_spec (Name r) resourceName) as [Hname|Hname].
    + split; [|reflexivity]. intros _. exists r. auto.
    + rewrite IH. split.
      * intros (r' & Hin & Hr'). exists r'. auto.
      * intros (r' & [<-|Hin] & Hr'); [contradiction|]. exists r'. auto.
Qed.

Section Decoding.
Context `{Json}.

(** C3, as amended.  [doResExists] returns true exactly when the name
    appears among the resource-definition records of the first element of
    the decoded listing; when the listing has a first element and none of
    its records has the name (as when it has no records), it returns false
    and no error; for input that does not decode it returns the decode
    error, wrapped, and not a plain false. *)
Theorem doResExists_first_element (resourceName resInfo : string) :
  (doResExists resourceName resInfo = Returns (true, None) <->
   exists resources first r,
     Unmarshal_resList resInfo = inr resources
     /\ resources !! 0%nat = Some first
     /\ In r (Resources first) /\ Name r = resourceName)
  /\ (forall resources first,
        Unmarshal_resList resInfo = inr resources ->
        resources !! 0%nat = Some first ->
        (forall r, In r (Resources first) -> Name r <> resourceName) ->
        doResExists resourceName resInfo = Returns (false, None))
  /\ (forall err,
        Unmarshal_resList resInfo = inl err ->
        doResExists resourceName resInfo
        = Returns (false,
                   Some (Errorf "couldn't Unmarshal %s :%v"
                           [OString resInfo; OError err]))).
Proof.
  unfold doResExists. repeat split.
  - destruct (Unmarshal_resList resInfo) as [err|resources]; [discriminate|].
    destruct (resources !! 0%nat) as [first|] eqn:Hfirst; [|discriminate].
    intros [= Hloop].
    apply doResExists_resources_true in Hloop as (r & Hin & Hname).
    exists resources, first, r. auto.
  - intros (resources & first & r & -> & -> & Hin & Hname).
    do 2 f_equal. apply doResExists_resources_true. exists r. auto.
  - intros resources first -> -> Hnone. do 2 f_equal.
    apply not_true_iff_false. rewrite doResExists_resources_true.
    intros (r & Hin & Hname). exact (Hnone r Hin Hname).
  - intros err ->. reflexivity.
Qed.

End Decoding.

(** C3, counterexample.  The input [[]] decodes, to a listing without
    elements, an empty snapshot; [doResExists] does not return false on
    it: it panics.  And r0, defined by a record in a second top-level
    element of the decoded listing, is not found. *)
Lemma doResExists_first_element_only :
  (Fixture.decoded "[]" = inr []
   /\ @doResExists Fixture.json "r0" "[]" = Panics index_out_of_range
   /\ @doResExists Fixture.json "r0" "[]" <> Returns (false, None))
  /\ (Fixture.decoded Fixture.second_object = inr Fixture.second_object_list
      /\ In (Fixture.definition "r0" "alpha")
           (concat (map Resources Fixture.second_object_list))
      /\ @doResExists Fixture.json "r0" Fixture.second_object
         = Returns (false, None)).
Proof.
  split; [|split; [|split]].
  - repeat split; vm_compute; congruence.
  - vm_compute. reflexivity.
  - simpl. now left.
  - vm_compute. reflexivity.
Qed.

(** C3, witness: r1 is not in the two-node listing, which has records, nor
    in the listing without records; a text that is no JSON gives the decode
    error. *)
Lemma doResExists_first_element_witness :
  @doResExists Fixture.json "r1" Fixture.two_nodes = Returns (false, None)
  /\ @doResExists Fixture.json "r1" Fixture.no_resources = Returns (false, None)
  /\ @doResExists Fixture.json "r0" "[{"
     = Returns (false,
                Some (Errorf "couldn't Unmarshal %s :%v"
                        [OString "[{"; OError JsonText.syntax_error])).
Proof.
  split; [|split].
  - eapply (proj1 (proj2 (@doResExists_first_element Fixture.json "r1" _))).
    + vm_compute. reflexivity.
    + reflexivity.
    + simpl. intros r [<-|[<-|[]]]; discriminate.
  - eapply (proj1 (proj2 (@doResExists_first_element Fixture.json "r1" _))).
    + vm_compute. reflexivity.
    + reflexivity.
    + intros r [].
  - apply (proj2 (proj2 (@doResExists_first_element Fixture.json "r0" _))).
    vm_compute. reflexivity.
Defined.

(** The readers on the fixture: r0 is defined in the two-node listing; a
    definition in a second top-level object is not found. *)
Example doResExists_runs :
  @doResExists Fixture.json "r0" Fixture.two_nodes = Returns (true, None)
  /\ @doResExists Fixture.json "r0" Fixture.second_object = Returns (false, None)
  /\ @doResExists Fixture.json "r0" "null" = Panics index_out_of_range.
Proof. repeat split; vm_compute; reflexivity. Qed.

(** ** Runs on a host *)

Section Runs.
Context {W : Type} `{Host W} `{Json} `{Language}.

Lemma bind_returns {A B : Type} (m : Go W A) (k : A -> Go W B)
    (st st' : run W) (a : A) :
  m st = (Returns a, st') -> bind m k st = k a st'.
Proof. intros Hm. unfold bind. now rewrite Hm. Qed.

Lemma bind_panics {A B : Type} (m : Go W A) (k : A -> Go W B)
    (st st' : run W) (message : string) :
  m st = (Panics message, st') -> bind m k st = (Panics message, st').
Proof. intros Hm. unfold bind. now rewrite Hm. Qed.

Lemma exec_ran (name : string) (args : list string) (st : run W) :
  exec name args st
  = (Returns (fst (CombinedOutput name args (world st))), ran name args st).
Proof.
  unfold exec, ran. now destruct (CombinedOutput name args (world st)).
Qed.

(** C5.  When the listing the control plane prints decodes to an empty
    top-level array, element 0 is read without a guard: [doResExists],
    [doResOnNode], [doIsClient] and [getDevPath] all panic with an index
    out of range, and so do [Exists], [OnNode] and [IsClient] above them. *)
Theorem empty_listing_panics (r : Resource) (name nodeName out : string)
    (st : run W) :
  Unmarshal_resList out = inr [] ->
  fst (CombinedOutput "linstor" ls_rsc (world st)) = (out, None) ->
  doResExists name out = Panics index_out_of_range
  /\ doResOnNode [] name nodeName = Panics index_out_of_range
  /\ doIsClient r [] nodeName = Panics index_out_of_range
  /\ fst (getDevPath r st) = Panics index_out_of_range
  /\ fst (Exists r st) = Panics index_out_of_range
  /\ fst (OnNode r nodeName st) = Panics index_out_of_range
  /\ fst (IsClient r nodeName st) = Panics index_out_of_range.
Proof.
  intros Hdecode Hout.
  assert (Hexists : forall n, doResExists n out = Panics index_out_of_range).
  { intros n. unfold doResExists. now rewrite Hdecode. }
  repeat split; try reflexivity; try apply Hexists.
  - unfold getDevPath, bind. rewrite exec_ran, Hout, Hdecode. reflexivity.
  - unfold Exists, bind. rewrite exec_ran, Hout. unfold lift.
    now rewrite Hexists.
  - unfold OnNode, bind. rewrite exec_ran, Hout, Hdecode. reflexivity.
  - unfold IsClient, bind. rewrite exec_ran, Hout, Hdecode. reflexivity.
Qed.

End Runs.

(** C5, witness: the fixture's control plane printing [[]]. *)
Lemma empty_listing_panics_witness :
  fst (@getDevPath _ Fixture.host Fixture.json Fixture.language Fixture.r0
         (Fixture.start (Fixture.mk_plane "[]" "" ["/dev/drbd0"] 0)))
  = Panics index_out_of_range
  /\ @doResExists Fixture.json "r0" "[]" = Panics index_out_of_range.
Proof.
  pose proof (@empty_listing_panics _ Fixture.host Fixture.json
                Fixture.language Fixture.r0 "r0" "alpha" "[]"
                (Fixture.start (Fixture.mk_plane "[]" "" ["/dev/drbd0"] 0))
                ltac:(vm_compute; reflexivity) eq_refl) as Hpanics.
  split.
  - exact (proj1 (proj2 (proj2 (proj2 Hpanics)))).
  - exact (proj1 Hpanics).
Defined.

(** ** Assignment *)

Section Assignment.
Context {W : Type} `{Host W} `{Json}.

Lemma listed_zero (st : run W) : listed 0 st = st.
Proof.
  destruct st as [w log]. unfold listed. simpl. now rewrite app_nil_r.
Qed.

Lemma ran_listed (k : nat) (st : run W) :
  ran "linstor" ls_rsc (listed k st) = listed (S k) st.
Proof.
  unfold ran, listed. simpl. f_equal.
  rewrite <- app_assoc. f_equal.
  exact (eq_sym (repeat_cons k ("linstor", ls_rsc))).
Qed.

Lemma issued_listed (k : nat) (st : run W) :
  List.filter is_create_resource (issued (listed k st))
  = List.filter is_create_resource (issued st).
Proof.
  unfold listed. simpl. rewrite List.filter_app.
  assert (Hnone : List.filter is_create_resource (repeat ("linstor", ls_rsc) k) = []).
  { induction k as [|k IH]; [reflexivity | exact IH]. }
  rewrite Hnone. apply app_nil_r.
Qed.

Lemma OnNode_present (r : Resource) (node out : string) (l : resList)
    (st : run W) (k : nat) :
  prints st out k ->
  Unmarshal_resList out = inr l ->
  doResOnNode l (r_Name r) node = Returns true ->
  OnNode r node (listed k st) = (Returns (true, None), listed (S k) st).
Proof.
  unfold prints. intros Hout Hdecode Hnode.
  unfold OnNode, bind. rewrite exec_ran, ran_listed.
  change (world (listed k st)) with (after_listings k (world st)).
  rewrite Hout, Hdecode. unfold lift. now rewrite Hnode.
Qed.

(** A loop of [Assign] over nodes that are all present only queries. *)
Lemma Assign_nodes_present (r : Resource) (create : string -> list string)
    (out : string) (l : resList) (st : run W) (nodes : list string) :
  forall k : nat,
  (forall j, (k <= j < k + length nodes)%nat -> prints st out j) ->
  Unmarshal_resList out = inr l ->
  (forall node, In node nodes -> doResOnNode l (r_Name r) node = Returns true) ->
  Assign_nodes r create nodes (listed k st)
  = (Returns None, listed (k + length nodes) st).
Proof.
  induction nodes as [|node rest IH]; intros k Hout Hdecode Hpresent.
  - simpl. now rewrite Nat.add_0_r.
  - cbn [Assign_nodes length].
    rewrite (bind_returns _ _ _ _ _
               (OnNode_present r node out l st k
                  (Hout k ltac:(simpl; lia)) Hdecode
                  (Hpresent node (or_introl eq_refl)))).
    cbn [negb].
    rewrite (IH (S k)).
    + f_equal. f_equal. lia.
    + intros j Hj. apply Hout. simpl. lia.
    + exact Hdecode.
    + intros node' Hin. apply Hpresent. now right.
Qed.

(** C6.  [Assign] first asks [Exists]; when the answer is false it returns
    the error [No resource definition for resource ...] at once, in the
    state [Exists] left: no further command is run.  And when every listing
    query of the call prints the same snapshot, in which the resource is
    defined and [doResOnNode] is true for every node of [NodeList] and
    [ClientList], [Assign] returns success having run only the listing
    queries: it issues no create-resource command. *)
Theorem Assign_needs_definition_and_skips_present (r : Resource) (st : run W) :
  (forall st',
     Exists r st = (Returns (false, None), st') ->
     Assign r st
     = (Returns (Some (Errorf "No resource definition for resource %s"
                         [OString (r_Name r)])), st'))
  /\ (forall out l,
        (forall k, (k <= length (NodeList r) + length (ClientList r))%nat ->
           prints st out k) ->
        doResExists (r_Name r) out = Returns (true, None) ->
        Unmarshal_resList out = inr l ->
        (forall node, In node (NodeList r ++ ClientList r) ->
           doResOnNode l (r_Name r) node = Returns true) ->
        Assign r st
        = (Returns None,
           listed (1 + length (NodeList r) + length (ClientList r)) st)
        /\ List.filter is_create_resource (issued (snd (Assign r st)))
           = List.filter is_create_resource (issued st)).
Proof.
  split.
  - intros st' Hexists. unfold Assign.
    rewrite (bind_returns _ _ _ _ _ Hexists). reflexivity.
  - intros out l Hout Hdefined Hdecode Hpresent.
    assert (Hrun : Assign r st
                   = (Returns None,
                      listed (1 + length (NodeList r) + length (ClientList r)) st)).
    { unfold Assign.
      assert (Hexists : Exists r st = (Returns (true, None), listed 1 st)).
      { unfold Exists, bind. rewrite exec_ran.
        rewrite <- (listed_zero st) at 2. rewrite ran_listed.
        pose proof (Hout 0%nat ltac:(lia)) as Hfirst. unfold prints in Hfirst.
        simpl in Hfirst. rewrite Hfirst. unfold lift. now rewrite Hdefined. }
      rewrite (bind_returns _ _ _ _ _ Hexists). cbn [negb].
      rewrite (bind_returns _ _ _ _ _
                 (Assign_nodes_present r (create_with_storage r) out l st
                    (NodeList r) 1
                    ltac:(intros j Hj; apply Hout; lia) Hdecode
                    ltac:(intros node Hin; apply Hpresent, in_or_app; now left))).
      rewrite (Assign_nodes_present r (create_diskless r) out l st
                 (ClientList r) (1 + length (NodeList r))
                 ltac:(intros j Hj; apply Hout; lia) Hdecode
                 ltac:(intros node Hin; apply Hpresent, in_or_app; now right)).
      reflexivity. }
    split; [exact Hrun|]. rewrite Hrun. apply issued_listed.
Qed.

End Assignment.

(** The fixture's control plane prints its listing at every query. *)
Lemma fixture_prints (w : Fixture.plane) (log : list command) (k : nat) :
  @prints _ Fixture.host (mk_run w log) (Fixture.listing w) k.
Proof.
  unfold prints. simpl world.
  assert (Hsame : @after_listings _ Fixture.host k w = w).
  { induction k as [|k IH]; [reflexivity|].
    change (@after_listings _ Fixture.host (S k) w)
      with (snd (Fixture.run_command "linstor" ls_rsc
                   (@after_listings _ Fixture.host k w))).
    rewrite IH. reflexivity. }
  rewrite Hsame. reflexivity.
Qed.

(** C6, witness: r0 is wanted on alpha with storage and on beta without;
    the two-node listing has it on both, so [Assign] runs three listing
    queries and nothing else.  Against the listing without records it
    stops after the first query. *)
Lemma Assign_needs_definition_and_skips_present_witness :
  @Assign _ Fixture.host Fixture.json Fixture.r0
    (Fixture.start (Fixture.mk_plane Fixture.two_nodes "" [] 0))
  = (Returns None,
     mk_run (Fixture.mk_plane Fixture.two_nodes "" [] 0)
       [("linstor", ls_rsc); ("linstor", ls_rsc); ("linstor", ls_rsc)])
  /\ @Assign _ Fixture.host Fixture.json Fixture.r0
       (Fixture.start (Fixture.mk_plane Fixture.no_resources "" [] 0))
     = (Returns (Some (Errorf "No resource definition for resource %s"
                         [OString "r0"])),
        mk_run (Fixture.mk_plane Fixture.no_resources "" [] 0)
          [("linstor", ls_rsc)]).
Proof.
  split.
  - refine (proj1 (proj2 (@Assign_needs_definition_and_skips_present
                            _ Fixture.host Fixture.json Fixture.r0 _)
                     Fixture.two_nodes Fixture.two_nodes_list _ _ _ _)).
    + intros k _. apply fixture_prints.
    + vm_compute. reflexivity.
    + vm_compute. reflexivity.
    + simpl. intros node [<-|[<-|[]]]; reflexivity.
  - apply (proj1 (@Assign_needs_definition_and_skips_present
                    _ Fixture.host Fixture.json Fixture.r0 _)).
    vm_compute. reflexivity.
Defined.

(** ** Formatting *)

Section Formatting.
Context {W : Type} `{Host W}.

(** The probe runs [blkid] once and nothing else. *)
Lemma checkFSType_ran (dev : string) (st : run W) :
  snd (checkFSType dev st) = ran "blkid" ["-o"; "udev"; dev] st
  /\ exists result, fst (checkFSType dev st) = Returns result.
Proof.
  unfold checkFSType, bind. rewrite exec_ran.
  destruct (fst (CombinedOutput "blkid" ["-o"; "udev"; dev] (world st)))
    as [out err].
  destruct (doCheckFSType out) as [fs [e|]]; simpl; eauto.
Qed.

(** C2, as amended.  Let the probe of the device report the type
    [deviceFS].  If it equals the desired type, [safeFormat] returns
    success and runs no command after the probe.  If it is the empty string
    and the desired type is not, [safeFormat] runs [mkfs -t] with the
    desired type on the device, and returns success or the wrapped error of
    that command.  If it is not empty and differs from the desired type,
    [safeFormat] returns the [refusing to overwrite] error and runs no
    command after the probe.  The probe itself runs [blkid] only. *)
Theorem safeFormat_decides (f : FSUtil) (path deviceFS : string)
    (st st' : run W) :
  checkFSType path st = (Returns (deviceFS, None), st') ->
  st' = ran "blkid" ["-o"; "udev"; path] st
  /\ (deviceFS = FSType f -> safeFormat f path st = (Returns None, st'))
  /\ (deviceFS = "" -> FSType f <> "" ->
      safeFormat f path st
      = (Returns
           match fst (CombinedOutput "mkfs" ["-t"; FSType f; path] (world st')) with
           | (out, Some err) =>
             Some (Errorf "couldn't create %s filesystem %v: %q"
                     [OString (FSType f); OError err; OString out])
           | (_, None) => None
           end,
         ran "mkfs" ["-t"; FSType f; path] st'))
  /\ (deviceFS <> "" -> deviceFS <> FSType f ->
      safeFormat f path st
      = (Returns (Some (Errorf
           "device %q already formatted with %q filesystem, refusing to overwrite with %q filesystem"
           [OString path; OString deviceFS; OString (FSType f)])),
         st')).
Proof.
  intros Hprobe.
  split; [|split; [|split]].
  - pose proof (proj1 (checkFSType_ran path st)) as Hran.
    now rewrite Hprobe in Hran.
  - intros ->. unfold safeFormat.
    rewrite (bind_returns _ _ _ _ _ Hprobe).
    now rewrite String.eqb_refl.
  - intros -> Hdesired. unfold safeFormat.
    rewrite (bind_returns _ _ _ _ _ Hprobe).
    destruct (String.eqb_spec "" (FSType f)) as [Hsame|_];
      [now destruct Hdesired|].
    cbn [String.eqb negb andb].
    unfold bind. rewrite exec_ran.
    destruct (fst (CombinedOutput "mkfs" ["-t"; FSType f; path] (world st')))
      as [out [err|]]; reflexivity.
  - intros Hformatted Hforeign. unfold safeFormat.
    rewrite (bind_returns _ _ _ _ _ Hprobe).
    destruct (String.eqb_spec deviceFS (FSType f)) as [|_]; [contradiction|].
    destruct (String.eqb_spec deviceFS "") as [|_]; [contradiction|].
    reflexivity.
Qed.

End Formatting.

(** C2, counterexample.  With the empty string as desired type and a device
    whose probe prints nothing, the probed type is the empty string, and
    [safeFormat] returns success after the probe alone: [mkfs] is not run. *)
Lemma safeFormat_empty_type_runs_no_mkfs :
  @checkFSType _ Fixture.host "/dev/drbd7"
    (Fixture.start (Fixture.mk_plane Fixture.one_node "" ["/dev/drbd7"] 0))
  = (Returns ("", None),
     mk_run (Fixture.mk_plane Fixture.one_node "" ["/dev/drbd7"] 0)
       [("blkid", ["-o"; "udev"; "/dev/drbd7"])])
  /\ @safeFormat _ Fixture.host (mk_FSUtil (Some Fixture.r0) "") "/dev/drbd7"
       (Fixture.start (Fixture.mk_plane Fixture.one_node "" ["/dev/drbd7"] 0))
     = (Returns None,
        mk_run (Fixture.mk_plane Fixture.one_node "" ["/dev/drbd7"] 0)
          [("blkid", ["-o"; "udev"; "/dev/drbd7"])]).
Proof. split; vm_compute; reflexivity. Qed.

(** C2, witness: an unformatted device is formatted with ext4; one that
    carries xfs is refused; one that carries ext4 is left alone. *)
Lemma safeFormat_decides_witness :
  @safeFormat _ Fixture.host (mk_FSUtil (Some Fixture.r0) "ext4") "/dev/drbd7"
    (Fixture.start (Fixture.mk_plane Fixture.one_node "" ["/dev/drbd7"] 0))
  = (Returns None,
     mk_run (Fixture.mk_plane Fixture.one_node "ID_FS_TYPE=ext4" ["/dev/drbd7"] 0)
       [("blkid", ["-o"; "udev"; "/dev/drbd7"]);
        ("mkfs", ["-t"; "ext4"; "/dev/drbd7"])])
  /\ @safeFormat _ Fixture.host (mk_FSUtil (Some Fixture.r0) "ext4") "/dev/drbd7"
       (Fixture.start
          (Fixture.mk_plane Fixture.one_node "ID_FS_TYPE=xfs" ["/dev/drbd7"] 0))
     = (Returns (Some (Errorf
          "device %q already formatted with %q filesystem, refusing to overwrite with %q filesystem"
          [OString "/dev/drbd7"; OString "xfs"; OString "ext4"])),
        mk_run (Fixture.mk_plane Fixture.one_node "ID_FS_TYPE=xfs" ["/dev/drbd7"] 0)
          [("blkid", ["-o"; "udev"; "/dev/drbd7"])])
  /\ @safeFormat _ Fixture.host (mk_FSUtil (Some Fixture.r0) "ext4") "/dev/drbd7"
       (Fixture.start
          (Fixture.mk_plane Fixture.one_node "ID_FS_TYPE=ext4" ["/dev/drbd7"] 0))
     = (Returns None,
        mk_run (Fixture.mk_plane Fixture.one_node "ID_FS_TYPE=ext4" ["/dev/drbd7"] 0)
          [("blkid", ["-o"; "udev"; "/dev/drbd7"])]).
Proof.
  split; [|split].
  - exact (proj1 (proj2 (proj2
      (@safeFormat_decides _ Fixture.host (mk_FSUtil (Some Fixture.r0) "ext4")
         "/dev/drbd7" ""
         (Fixture.start (Fixture.mk_plane Fixture.one_node "" ["/dev/drbd7"] 0))
         _ eq_refl))) eq_refl ltac:(discriminate)).
  - exact (proj2 (proj2 (proj2
      (@safeFormat_decides _ Fixture.host (mk_FSUtil (Some Fixture.r0) "ext4")
         "/dev/drbd7" "xfs"
         (Fixture.start
            (Fixture.mk_plane Fixture.one_node "ID_FS_TYPE=xfs" ["/dev/drbd7"] 0))
         _ eq_refl))) ltac:(discriminate) ltac:(discriminate)).
  - exact (proj1 (proj2
      (@safeFormat_decides _ Fixture.host (mk_FSUtil (Some Fixture.r0) "ext4")
         "/dev/drbd7" "ext4"
         (Fixture.start
            (Fixture.mk_plane Fixture.one_node "ID_FS_TYPE=ext4" ["/dev/drbd7"] 0))
         _ eq_refl)) eq_refl).
Defined.

(** ** The file system probe *)

(** [Split] cuts at every separator and nowhere else: joining the pieces
    gives the string back, and no piece has a separator. *)
Lemma Split_Join (s : string) (sep : ascii) :
  Join (Split s sep) sep = s.
Proof.
  induction s as [|c rest IH]; [reflexivity|].
  cbn [Split]. destruct (Ascii.eqb_spec c sep) as [->|Hc].
  - destruct (Split rest sep) as [|piece pieces] eqn:Hrest.
    + destruct rest; simpl in Hrest; [discriminate|].
      destruct (Ascii.eqb a sep); [discriminate|].
      destruct (Split rest sep); discriminate.
    + change (String sep (Join (piece :: pieces) sep) = String sep rest).
      now rewrite IH.
  - destruct (Split rest sep) as [|piece pieces] eqn:Hrest.
    + destruct rest; simpl in Hrest; [discriminate|].
      destruct (Ascii.eqb a sep); [discriminate|].
      destruct (Split rest sep); discriminate.
    + rewrite <- IH. now destruct pieces.
Qed.

Lemma Split_pieces_clean (s : string) (sep : ascii) :
  forall piece, In piece (Split s sep) -> contains sep piece = false.
Proof.
  induction s as [|c rest IH]; intros piece.
  - intros [<-|[]]. reflexivity.
  - cbn [Split]. destruct (Ascii.eqb c sep) eqn:Hc.
    + intros [<-|Hin]; [reflexivity | now apply IH].
    + destruct (Split rest sep) as [|first pieces].
      * intros [<-|[]]. simpl. now rewrite Hc.
      * intros [<-|Hin].
        -- simpl. rewrite Hc. apply IH. now left.
        -- apply IH. now right.
Qed.

(** The fields of [Fields] are not empty. *)
Lemma Fields_from_nonempty (s : string) :
  forall skip field token,
    In token (Fields_from s skip field) -> token <> EmptyString.
Proof.
  assert (Hclose : forall field token,
            In token (close_field field) -> token <> EmptyString).
  { intros [|c field] token; [intros []|]. intros [<-|[]]. discriminate. }
  induction s as [|c rest IH]; intros skip field token.
  - apply Hclose.
  - cbn [Fields_from]. destruct skip as [|k]; [|apply IH].
    destruct (space_width (String c rest)) as [|k]; [apply IH|].
    intros Hin. apply in_app_or in Hin as [Hin|Hin].
    + exact (Hclose _ _ Hin).
    + exact (IH _ _ _ Hin).
Qed.

Lemma Fields_nonempty (s token : string) :
  In token (Fields s) -> token <> EmptyString.
Proof. apply Fields_from_nonempty. Qed.

Lemma Split_without_separator (s : string) (sep : ascii) :
  contains sep s = false -> Split s sep = [s].
Proof.
  induction s as [|c rest IH]; simpl; [reflexivity|].
  intros Hnone. apply orb_false_iff in Hnone as [Hc Hrest].
  rewrite Hc, (IH Hrest). reflexivity.
Qed.

Lemma Split_with_separator (s : string) (sep : ascii) :
  contains sep s = true ->
  exists p0 p1 pieces, Split s sep = p0 :: p1 :: pieces.
Proof.
  induction s as [|c rest IH]; simpl; [discriminate|].
  destruct (Ascii.eqb c sep) eqn:Hc; simpl.
  - intros _. destruct rest as [|c' rest']; simpl.
    + now exists EmptyString, EmptyString, [].
    + destruct (Ascii.eqb c' sep).
      * eexists _, _, _. reflexivity.
      * destruct (Split rest' sep) as [|piece pieces];
          eexists _, _, _; reflexivity.
  - intros Hrest. destruct (IH Hrest) as (p0 & p1 & pieces & ->).
    now exists (String c p0), p1, pieces.
Qed.

Lemma Split_two_pieces (s : string) (sep : ascii) (p0 p1 : string)
    (pieces : list string) :
  Split s sep = p0 :: p1 :: pieces ->
  contains sep s = true /\ String.prefix (p0 +:+ String sep EmptyString) s = true.
Proof.
  revert p0 p1 pieces.
  induction s as [|c rest IH]; intros p0 p1 pieces; [discriminate|].
  cbn [Split contains].
  destruct (Ascii.eqb_spec c sep) as [->|Hc].
  - intros [= <- _]. split; [reflexivity|].
    change (String.prefix (String sep EmptyString) (String sep rest) = true).
    cbn. destruct (ascii_dec sep sep); [now destruct rest | contradiction].
  - destruct (Split rest sep) as [|q0 [|q1 qs]] eqn:Hrest; try discriminate.
    intros [= <- <- <-]. destruct (IH _ _ _ eq_refl) as [Hsep Hprefix].
    split; [exact Hsep|].
    change (String.prefix (String c (q0 +:+ String sep EmptyString))
              (String c rest) = true).
    cbn. destruct (ascii_dec c c); [exact Hprefix | contradiction].
Qed.

(** The loop stops at a token without separator, whatever came before. *)
Lemma doCheckFSType_pairs_malformed (f : list string) (s : string) :
  (exists token, In token f /\ contains "="%char token = false) ->
  forall blockAttrs,
    doCheckFSType_pairs f s blockAttrs
    = (EmptyString,
       Some (Errorf "couldn't parse filesystem data from %s" [OString s])).
Proof.
  induction f as [|kv rest IH]; intros (token & Hin & Hnone) blockAttrs.
  - destruct Hin.
  - simpl. destruct (Split kv "="%char) as [|p0 [|p1 pieces]] eqn:Hsplit;
      try reflexivity.
    apply IH. exists token. split; [|exact Hnone].
    destruct Hin as [->|Hin]; [|exact Hin].
    apply Split_two_pieces in Hsplit as [Hsep _]. congruence.
Qed.

(** On well-formed tokens the loop fills the map and looks the key up. *)
Lemma doCheckFSType_pairs_well_formed (f : list string) (s : string) :
  (forall token, In token f -> contains "="%char token = true) ->
  forall blockAttrs,
    doCheckFSType_pairs f s blockAttrs
    = match attributes f blockAttrs !! FSKey with
      | Some fs => (fs, None)
      | None =>
        (EmptyString,
         Some (Errorf "couldn't find %s in %s"
                 [OString FSKey; OMap (attributes f blockAttrs)]))
      end.
Proof.
  induction f as [|kv rest IH]; intros Hall blockAttrs; [reflexivity|].
  destruct (Split_with_separator kv "="%char (Hall kv (or_introl eq_refl)))
    as (p0 & p1 & pieces & Hsplit).
  unfold attributes. simpl. rewrite Hsplit.
  apply IH. intros token Hin. apply Hall. now right.
Qed.

Lemma attributes_app (before after : list string) (m : gmap string string) :
  attributes (before ++ after) m = attributes after (attributes before m).
Proof. unfold attributes. apply fold_left_app. Qed.

(** Tokens of other keys leave the key's entry as it is. *)
Lemma attributes_other_keys (key : string) (f : list string) :
  (forall token, In token f -> has_key key token = false) ->
  forall m : gmap string string, attributes f m !! key = m !! key.
Proof.
  induction f as [|kv rest IH]; intros Hother m; [reflexivity|].
  unfold attributes. simpl.
  fold (attributes rest
          match Split kv "="%char with
          | p0 :: p1 :: _ => <[p0:=p1]> m
          | _ => m
          end).
  rewrite IH by (intros token Hin; apply Hother; now right).
  destruct (Split kv "="%char) as [|p0 [|p1 pieces]] eqn:Hsplit; try reflexivity.
  apply lookup_insert_ne. intros ->.
  apply Split_two_pieces in Hsplit as [_ Hprefix].
  specialize (Hother kv (or_introl eq_refl)). unfold has_key in Hother.
  congruence.
Qed.

(** Of several tokens with the key the last one decides. *)
Lemma attributes_last_wins (key value : string) (before after : list string)
    (m : gmap string string) :
  (exists pieces, Split (key +:+ "=" +:+ value) "="%char = key :: value :: pieces) ->
  (forall token, In token after -> has_key key token = false) ->
  attributes (before ++ (key +:+ "=" +:+ value) :: after) m !! key = Some value.
Proof.
  intros (pieces & Hsplit) Hafter.
  rewrite attributes_app.
  change (attributes ((key +:+ "=" +:+ value) :: after) (attributes before m))
    with (attributes after
            match Split (key +:+ "=" +:+ value) "="%char with
            | p0 :: p1 :: _ => <[p0:=p1]> (attributes before m)
            | _ => attributes before m
            end).
  rewrite attributes_other_keys by exact Hafter.
  rewrite Hsplit. apply lookup_insert_eq.
Qed.

(** C8.  For every probe output [s]: with no field at all the result is the
    empty string and no error; with the token [ID_FS_TYPE=ext4] among
    tokens that are KEY=VALUE pairs of other keys the result is [ext4]
    and no error; with any token that lacks the separator the result is
    the parse error; with fields that all have the separator and none the
    key [ID_FS_TYPE] the result is the error that the key was not found. *)
Theorem doCheckFSType_cases (s : string) :
  (Fields s = [] -> doCheckFSType s = (EmptyString, None))
  /\ (forall before after,
        Fields s = (before ++ "ID_FS_TYPE=ext4" :: after)%list ->
        (forall token, In token (before ++ after) ->
           contains "="%char token = true /\ has_key FSKey token = false) ->
        doCheckFSType s = ("ext4", None))
  /\ ((exists token, In token (Fields s) /\ contains "="%char token = false) ->
      doCheckFSType s
      = (EmptyString,
         Some (Errorf "couldn't parse filesystem data from %s" [OString s])))
  /\ (Fields s <> [] ->
      (forall token, In token (Fields s) ->
         contains "="%char token = true /\ has_key FSKey token = false) ->
      exists blockAttrs,
        doCheckFSType s
        = (EmptyString,
           Some (Errorf "couldn't find %s in %s"
                   [OString FSKey; OMap blockAttrs]))).
Proof.
  unfold doCheckFSType. split; [|split; [|split]].
  - intros ->. reflexivity.
  - intros before after Hfields Hothers. rewrite Hfields.
    rewrite length_app. cbn [length].
    replace (length before + S (length after) =? 0)%nat with false
      by (symmetry; apply Nat.eqb_neq; lia).
    rewrite doCheckFSType_pairs_well_formed.
    + rewrite (attributes_last_wins FSKey "ext4" before after ∅).
      * reflexivity.
      * now exists [].
      * intros token Hin. apply Hothers, in_or_app. now right.
    + intros token Hin. apply in_app_or in Hin as [Hin|[<-|Hin]].
      * apply Hothers, in_or_app. now left.
      * reflexivity.
      * apply Hothers, in_or_app. now right.
  - intros (token & Hin & Hnone).
    destruct (Fields s) as [|kv rest] eqn:Hfields; [destruct Hin|].
    cbn [length Nat.eqb].
    apply doCheckFSType_pairs_malformed. now exists token.
  - intros Hsome Hall.
    destruct (Fields s) as [|kv rest] eqn:Hfields; [contradiction|].
    cbn [length Nat.eqb].
    exists (attributes (kv :: rest) ∅).
    rewrite doCheckFSType_pairs_well_formed by (intros t Ht; apply Hall, Ht).
    rewrite attributes_other_keys by (intros t Ht; apply Hall, Ht).
    reflexivity.
Qed.

(** C8, witness: one probe output for each of the four cases. *)
Lemma doCheckFSType_cases_witness :
  doCheckFSType " " = ("", None)
  /\ doCheckFSType "ID_FS_UUID=0a1b ID_FS_TYPE=ext4 ID_FS_USAGE=filesystem"
     = ("ext4", None)
  /\ doCheckFSType "ID_FS_UUID=0a1b ID_FS_TYPE"
     = ("", Some (Errorf "couldn't parse filesystem data from %s"
                    [OString "ID_FS_UUID=0a1b ID_FS_TYPE"]))
  /\ exists blockAttrs,
       doCheckFSType "ID_FS_UUID=0a1b"
       = ("", Some (Errorf "couldn't find %s in %s"
                      [OString FSKey; OMap blockAttrs])).
Proof.
  split; [|split; [|split]].
  - exact (proj1 (doCheckFSType_cases " ") eq_refl).
  - refine (proj1 (proj2 (doCheckFSType_cases
              "ID_FS_UUID=0a1b ID_FS_TYPE=ext4 ID_FS_USAGE=filesystem"))
              ["ID_FS_UUID=0a1b"] ["ID_FS_USAGE=filesystem"] eq_refl _).
    simpl. intros token [<-|[<-|[]]]; split; reflexivity.
  - apply (proj1 (proj2 (proj2
             (doCheckFSType_cases "ID_FS_UUID=0a1b ID_FS_TYPE")))).
    exists "ID_FS_TYPE". split; [right; left|]; reflexivity.
  - apply (proj2 (proj2 (proj2 (doCheckFSType_cases "ID_FS_UUID=0a1b")))).
    + discriminate.
    + simpl. intros token [<-|[]]. split; reflexivity.
Defined.

(** With the key given twice the later token decides. *)
Example doCheckFSType_repeated_key :
  doCheckFSType "ID_FS_TYPE=ext4 ID_FS_TYPE=xfs" = ("xfs", None).
Proof. vm_compute. reflexivity. Qed.

(** ** The device path *)

Lemma last_nonempty_default (y d d' : volInfo) (rest : list volInfo) :
  List.last (y :: rest) d = List.last (y :: rest) d'.
Proof.
  revert y. induction rest as [|z rest IH]; intros y; [reflexivity|].
  exact (IH z).
Qed.

Lemma last_cons_default (x d : volInfo) (rest : list volInfo) :
  List.last (x :: rest) d = List.last rest x.
Proof.
  destruct rest as [|y rest]; [reflexivity|].
  exact (last_nonempty_default y d x rest).
Qed.

(** The inner loop with one variable for the statement: the length of the
    memory and the other variables stay, [v] ends with the last volume, and
    [vol] points to [v] when some volume has number 0. *)
Lemma getDevPath_volumes_shared (volumes : list volInfo) (v : nat) :
  forall (mem : memory) (vol : nat) (held : volInfo),
  mem !! v = Some held ->
  length (fst (getDevPath_volumes per_statement volumes v mem vol)) = length mem
  /\ (forall i, i <> v ->
        fst (getDevPath_volumes per_statement volumes v mem vol) !! i = mem !! i)
  /\ fst (getDevPath_volumes per_statement volumes v mem vol) !! v
     = Some (List.last volumes held)
  /\ snd (getDevPath_volumes per_statement volumes v mem vol)
     = if has_volume0 volumes then v else vol.
Proof.
  induction volumes as [|x rest IH]; intros mem vol held Hheld.
  - simpl. auto.
  - cbn [getDevPath_volumes].
    assert (Hv : (v < length mem)%nat) by (eapply lookup_lt_Some; eauto).
    destruct (IH (<[v:=x]> mem) (if VlmNr x =? 0 then v else vol) x
                (list_lookup_insert_eq mem v x Hv))
      as (Hlen & Hothers & Hlast & Hvol).
    rewrite Hlen, Hlast, Hvol, length_insert, last_cons_default.
    repeat split.
    + intros i Hi. rewrite (Hothers i Hi).
      apply list_lookup_insert_ne. congruence.
    + unfold has_volume0, is_volume0. cbn [existsb].
      fold is_volume0. fold (has_volume0 rest).
      destruct (VlmNr x =? 0), (has_volume0 rest); reflexivity.
Qed.

(** The inner loop with a variable per iteration: [vol] ends at the last
    volume numbered 0, if there is one. *)
Lemma getDevPath_volumes_fresh (volumes : list volInfo) :
  forall (v : nat) (mem : memory) (vol : nat),
  (vol < length mem)%nat ->
  (snd (getDevPath_volumes per_iteration volumes v mem vol)
   < length (fst (getDevPath_volumes per_iteration volumes v mem vol)))%nat
  /\ deref (fst (getDevPath_volumes per_iteration volumes v mem vol))
       (snd (getDevPath_volumes per_iteration volumes v mem vol))
     = List.last (List.filter is_volume0 volumes) (deref mem vol).
Proof.
  induction volumes as [|x rest IH]; intros v mem vol Hvol.
  - simpl. auto.
  - cbn [getDevPath_volumes].
    assert (Hfilter : List.filter is_volume0 (x :: rest)
                      = if VlmNr x =? 0 then x :: List.filter is_volume0 rest
                        else List.filter is_volume0 rest) by reflexivity.
    rewrite Hfilter. clear Hfilter.
    assert (Hnew : ((if (VlmNr x =? 0)%Z then length mem else vol)
                    < length (mem ++ [x]))%nat).
    { rewrite length_app. cbn [length]. destruct (VlmNr x =? 0); lia. }
    destruct (IH (length mem) (mem ++ [x])%list
                (if VlmNr x =? 0 then length mem else vol) Hnew)
      as [Hbound Hderef].
    split; [exact Hbound|]. rewrite Hderef.
    destruct (VlmNr x =? 0).
    + rewrite last_cons_default. f_equal. unfold deref.
      rewrite lookup_app_r by lia. now rewrite Nat.sub_diag.
    + f_equal. unfold deref. now rewrite lookup_app_l by lia.
Qed.

Lemma chosen_volume_cons (rule : range_variable) (res : resState)
    (rest : list resState) (name : string) (chosen : volInfo) :
  chosen_volume rule (res :: rest) name chosen
  = chosen_volume rule rest name
      (if (name =? RscName res)%string
       then decided rule (VlmStates res) chosen
       else chosen).
Proof. reflexivity. Qed.

Lemma chosen_volume_app (rule : range_variable)
    (before after : list resState) (name : string) (chosen : volInfo) :
  chosen_volume rule (before ++ after) name chosen
  = chosen_volume rule after name (chosen_volume rule before name chosen).
Proof. unfold chosen_volume. apply fold_left_app. Qed.

(** The loops of [getDevPath] compute [chosen_volume]. *)
Lemma getDevPath_states_spec (rule : range_variable)
    (states : list resState) (name : string) :
  forall (mem : memory) (vol : nat),
  (vol < length mem)%nat ->
  (snd (getDevPath_states rule states name mem vol)
   < length (fst (getDevPath_states rule states name mem vol)))%nat
  /\ deref (fst (getDevPath_states rule states name mem vol))
       (snd (getDevPath_states rule states name mem vol))
     = chosen_volume rule states name (deref mem vol).
Proof.
  induction states as [|res rest IH]; intros mem vol Hvol.
  - simpl. auto.
  - cbn [getDevPath_states]. rewrite chosen_volume_cons.
    destruct (String.eqb name (RscName res)); [|now apply IH].
    destruct rule.
    + assert (Hheld : (mem ++ [volInfo_zero])%list !! length mem
                      = Some volInfo_zero).
      { rewrite lookup_app_r by lia. now rewrite Nat.sub_diag. }
      destruct (getDevPath_volumes_shared (VlmStates res) (length mem)
                  (mem ++ [volInfo_zero])%list vol volInfo_zero Hheld)
        as (Hlen & Hothers & Hlast & Hnew).
      destruct (getDevPath_volumes per_statement (VlmStates res) (length mem)
                  (mem ++ [volInfo_zero])%list vol) as [mem' vol'].
      cbn [fst snd] in *. rewrite length_app in Hlen. cbn [length] in Hlen.
      assert (Hvol' : (vol' < length mem')%nat).
      { rewrite Hnew. destruct (has_volume0 (VlmStates res)); lia. }
      destruct (IH mem' vol' Hvol') as [Hbound Hderef].
      split; [exact Hbound|]. rewrite Hderef. f_equal.
      unfold deref, decided. rewrite Hnew.
      destruct (has_volume0 (VlmStates res)).
      * now rewrite Hlast.
      * rewrite (Hothers vol) by lia. now rewrite lookup_app_l by lia.
    + destruct (getDevPath_volumes_fresh (VlmStates res) (length mem) mem vol
                  Hvol) as [Hvol' Hnew].
      destruct (getDevPath_volumes per_iteration (VlmStates res) (length mem)
                  mem vol) as [mem' vol'].
      cbn [fst snd] in *.
      destruct (IH mem' vol' Hvol') as [Hbound Hderef].
      split; [exact Hbound|]. rewrite Hderef. f_equal. exact Hnew.
Qed.

Lemma getDevPath_vol_chosen `{Language} (states : list resState)
    (name : string) :
  getDevPath_vol states name
  = chosen_volume range_variables states name volInfo_zero.
Proof.
  unfold getDevPath_vol.
  pose proof (getDevPath_states_spec range_variables states name
                [volInfo_zero] 0%nat ltac:(simpl; lia)) as [_ Hderef].
  destruct (getDevPath_states range_variables states name [volInfo_zero] 0%nat)
    as [mem vol].
  exact Hderef.
Qed.

(** A record without volume numbered 0 leaves the choice as it is. *)
Lemma decided_without_volume0 (rule : range_variable)
    (volumes : list volInfo) (chosen : volInfo) :
  (forall v, In v volumes -> VlmNr v <> 0) ->
  decided rule volumes chosen = chosen.
Proof.
  intros Hnone.
  assert (Hfilter : List.filter is_volume0 volumes = []).
  { induction volumes as [|x rest IH]; [reflexivity|].
    cbn [List.filter]. unfold is_volume0 at 1.
    destruct (Z.eqb_spec (VlmNr x) 0) as [Hnr|_].
    - destruct (Hnone x (or_introl eq_refl) Hnr).
    - apply IH. intros v Hin. apply Hnone. now right. }
  destruct rule; unfold decided.
  - destruct (has_volume0 volumes) eqn:Hhas; [|reflexivity].
    apply existsb_exists in Hhas as (v & Hv & Hnr).
    apply Z.eqb_eq in Hnr. destruct (Hnone v Hv Hnr).
  - now rewrite Hfilter.
Qed.

(** A record whose last volume entry has number 0 decides by that entry. *)
Lemma decided_by_last_entry (rule : range_variable)
    (volumes : list volInfo) (v chosen : volInfo) :
  VlmNr v = 0 ->
  decided rule (volumes ++ [v]) chosen = v.
Proof.
  intros Hnr. apply Z.eqb_eq in Hnr.
  destruct rule; unfold decided.
  - unfold has_volume0. rewrite existsb_app. cbn [existsb].
    unfold is_volume0 at 2. rewrite Hnr, orb_true_r. apply last_last.
  - rewrite List.filter_app. cbn [List.filter]. unfold is_volume0 at 2.
    rewrite Hnr. apply last_last.
Qed.

(** Records that do not match, or have no volume numbered 0, leave the
    choice as it is. *)
Lemma chosen_volume_unchanged (rule : range_variable)
    (states : list resState) (name : string) :
  (forall res v, In res states -> name = RscName res ->
     In v (VlmStates res) -> VlmNr v <> 0) ->
  forall chosen, chosen_volume rule states name chosen = chosen.
Proof.
  induction states as [|res rest IH]; intros Hnone chosen; [reflexivity|].
  rewrite chosen_volume_cons.
  rewrite IH by (intros res' v Hin; apply Hnone; now right).
  destruct (String.eqb_spec name (RscName res)) as [Hname|_]; [|reflexivity].
  apply decided_without_volume0.
  intros v Hv. exact (Hnone res v (or_introl eq_refl) Hname Hv).
Qed.

(** The last matching record with a volume numbered 0 decides; when that
    volume is the last entry of its volume list, by it. *)
Lemma chosen_volume_last (rule : range_variable)
    (before after : list resState) (res : resState)
    (name : string) (volumes : list volInfo) (v : volInfo) :
  name = RscName res ->
  VlmStates res = (volumes ++ [v])%list ->
  VlmNr v = 0 ->
  (forall res' v', In res' after -> name = RscName res' ->
     In v' (VlmStates res') -> VlmNr v' <> 0) ->
  forall chosen,
    chosen_volume rule (before ++ res :: after) name chosen = v.
Proof.
  intros Hname Hvolumes Hnr Hafter chosen.
  rewrite chosen_volume_app, chosen_volume_cons.
  rewrite chosen_volume_unchanged by exact Hafter.
  rewrite <- Hname, String.eqb_refl, Hvolumes.
  now apply decided_by_last_entry.
Qed.

Section DevicePath.
Context {W : Type} `{Host W} `{Json} `{Language}.

(** One poll attempt on a listing that has a first element: the path is
    made from [*vol], checked with [Lstat], and returned only when the check
    passes. *)
Lemma getDevPath_run (r : Resource) (st : run W) (out : string)
    (list : resList) (first : resListEntry) :
  fst (CombinedOutput "linstor" ls_rsc (world st)) = (out, None) ->
  Unmarshal_resList out = inr list ->
  list !! 0%nat = Some first ->
  getDevPath r st
  = (Returns
       match Lstat (doGetDevPath (getDevPath_vol (ResourceStates first) (r_Name r)))
               (world (ran "linstor" ls_rsc st)) with
       | Some err =>
         (EmptyString,
          Some (Errorf "Couldn't stat %s: %v"
                  [OString (doGetDevPath
                              (getDevPath_vol (ResourceStates first) (r_Name r)));
                   OError err]))
       | None =>
         (doGetDevPath (getDevPath_vol (ResourceStates first) (r_Name r)), None)
       end,
     ran "linstor" ls_rsc st).
Proof.
  intros Hout Hdecode Hfirst.
  unfold getDevPath, bind. rewrite exec_ran, Hout, Hdecode, Hfirst.
  unfold lstat.
  now destruct (Lstat _ (world (ran "linstor" ls_rsc st))).
Qed.

(** C4, as amended.  On a decoded listing that has a first element, a poll
    attempt goes through all resource-state records of that element whose
    name is the resource's, on whatever node, and the last of them that
    carries a volume numbered 0 decides.  When that volume is the final
    entry of the record's volume list, the path is [/dev/drbd] followed by
    its minor number (7 gives /dev/drbd7, 0 gives /dev/drbd0); the attempt
    returns it only after [Lstat] of the path succeeds, and otherwise
    returns the empty path with the stat error. *)
Theorem getDevPath_last_record_decides (r : Resource) (st : run W)
    (out : string) (before after : list resState) (res : resState)
    (volumes : list volInfo) (v : volInfo)
    (list : resList) (first : resListEntry) :
  fst (CombinedOutput "linstor" ls_rsc (world st)) = (out, None) ->
  Unmarshal_resList out = inr list ->
  list !! 0%nat = Some first ->
  ResourceStates first = (before ++ res :: after)%list ->
  r_Name r = RscName res ->
  VlmStates res = (volumes ++ [v])%list ->
  VlmNr v = 0 ->
  (forall res' v', In res' after -> r_Name r = RscName res' ->
     In v' (VlmStates res') -> VlmNr v' <> 0) ->
  getDevPath r st
  = (Returns
       match Lstat ("/dev/drbd" +:+ format_d (VlmMinorNr v))
               (world (ran "linstor" ls_rsc st)) with
       | Some err =>
         (EmptyString,
          Some (Errorf "Couldn't stat %s: %v"
                  [OString ("/dev/drbd" +:+ format_d (VlmMinorNr v));
                   OError err]))
       | None => ("/dev/drbd" +:+ format_d (VlmMinorNr v), None)
       end,
     ran "linstor" ls_rsc st)
  /\ (VlmMinorNr v = 7 -> doGetDevPath v = "/dev/drbd7")
  /\ (VlmMinorNr v = 0 -> doGetDevPath v = "/dev/drbd0").
Proof.
  intros Hout Hdecode Hfirst Hstates Hname Hvolumes Hnr Hafter.
  split.
  - rewrite (getDevPath_run r st out list first Hout Hdecode Hfirst).
    rewrite getDevPath_vol_chosen, Hstates.
    now rewrite (chosen_volume_last range_variables before after res
                   (r_Name r) volumes v Hname Hvolumes Hnr Hafter).
  - unfold doGetDevPath. split; intros ->; reflexivity.
Qed.

(** C7, as amended.  On a decoded listing that has a first element, when no
    resource-state record of that element with the resource's name carries
    a volume numbered 0 (as when no record has the name), [*vol] is still
    the zero [volInfo], the path is /dev/drbd0, and [getDevPath] returns
    /dev/drbd0 without error whenever [Lstat] of that path succeeds: it
    does not report that the resource was not found. *)
Theorem getDevPath_falls_back_to_drbd0 (r : Resource) (st : run W)
    (out : string) (list : resList) (first : resListEntry) :
  fst (CombinedOutput "linstor" ls_rsc (world st)) = (out, None) ->
  Unmarshal_resList out = inr list ->
  list !! 0%nat = Some first ->
  (forall res v, In res (ResourceStates first) -> r_Name r = RscName res ->
     In v (VlmStates res) -> VlmNr v <> 0) ->
  getDevPath_vol (ResourceStates first) (r_Name r) = volInfo_zero
  /\ getDevPath r st
     = (Returns
          match Lstat "/dev/drbd0" (world (ran "linstor" ls_rsc st)) with
          | Some err =>
            (EmptyString,
             Some (Errorf "Couldn't stat %s: %v"
                     [OString "/dev/drbd0"; OError err]))
          | None => ("/dev/drbd0", None)
          end,
        ran "linstor" ls_rsc st)
  /\ (Lstat "/dev/drbd0" (world (ran "linstor" ls_rsc st)) = None ->
      getDevPath r st = (Returns ("/dev/drbd0", None), ran "linstor" ls_rsc st)).
Proof.
  intros Hout Hdecode Hfirst Hnone.
  assert (Hvol : getDevPath_vol (ResourceStates first) (r_Name r) = volInfo_zero).
  { rewrite getDevPath_vol_chosen. now apply chosen_volume_unchanged. }
  assert (Hrun := getDevPath_run r st out list first Hout Hdecode Hfirst).
  rewrite Hvol in Hrun.
  change (doGetDevPath volInfo_zero) with "/dev/drbd0" in Hrun.
  split; [exact Hvol|]. split; [exact Hrun|].
  intros Hstat. now rewrite Hrun, Hstat.
Qed.

End DevicePath.

(** C4, counterexample.  In the two-node listing the first record of r0
    is the one on alpha, with minor 7 for volume 0; both device paths
    exist; the attempt returns /dev/drbd9, from the later record on beta. *)
Lemma getDevPath_returns_later_record :
  Fixture.decoded Fixture.two_nodes = inr Fixture.two_nodes_list
  /\ hd_error (concat (map ResourceStates Fixture.two_nodes_list))
     = Some (Fixture.state "r0" "alpha" [Fixture.volume 0 7 true])
  /\ fst (@getDevPath _ Fixture.host Fixture.json Fixture.language Fixture.r0
            (Fixture.start
               (Fixture.mk_plane Fixture.two_nodes ""
                  ["/dev/drbd7"; "/dev/drbd9"] 0)))
     = Returns ("/dev/drbd9", None).
Proof. repeat split; vm_compute; reflexivity. Qed.

(** C4, witness: the two-node listing, where the record on beta is the
    last of r0 and its only volume has number 0 and minor 9. *)
Lemma getDevPath_last_record_decides_witness :
  @getDevPath _ Fixture.host Fixture.json Fixture.language Fixture.r0
    (Fixture.start
       (Fixture.mk_plane Fixture.two_nodes "" ["/dev/drbd7"; "/dev/drbd9"] 0))
  = (Returns ("/dev/drbd9", None),
     mk_run (Fixture.mk_plane Fixture.two_nodes "" ["/dev/drbd7"; "/dev/drbd9"] 0)
       [("linstor", ls_rsc)]).
Proof.
  refine (proj1 (@getDevPath_last_record_decides _ Fixture.host Fixture.json
                   Fixture.language Fixture.r0
                   (Fixture.start
                      (Fixture.mk_plane Fixture.two_nodes ""
                         ["/dev/drbd7"; "/dev/drbd9"] 0))
                   Fixture.two_nodes
                   [Fixture.state "r0" "alpha" [Fixture.volume 0 7 true]] []
                   (Fixture.state "r0" "beta" [Fixture.volume 0 9 false])
                   [] (Fixture.volume 0 9 false) Fixture.two_nodes_list _
                   eq_refl _ eq_refl eq_refl eq_refl eq_refl eq_refl _)).
  - vm_compute. reflexivity.
  - intros res' v' [].
Defined.

(** C7, counterexample.  On the empty listing no record matches and
    /dev/drbd0 exists, yet the attempt does not return /dev/drbd0: it
    panics. *)
Lemma getDevPath_empty_listing_no_fallback :
  Fixture.decoded "[]" = inr []
  /\ @Lstat _ Fixture.host "/dev/drbd0" (Fixture.mk_plane "[]" "" ["/dev/drbd0"] 0)
     = None
  /\ fst (@getDevPath _ Fixture.host Fixture.json Fixture.language Fixture.r0
            (Fixture.start (Fixture.mk_plane "[]" "" ["/dev/drbd0"] 0)))
     = Panics index_out_of_range.
Proof. repeat split; vm_compute; reflexivity. Qed.

(** C7, witness: the listing without records, on a host where /dev/drbd0
    exists: r0 is nowhere and the attempt returns /dev/drbd0. *)
Lemma getDevPath_falls_back_to_drbd0_witness :
  @getDevPath _ Fixture.host Fixture.json Fixture.language Fixture.r0
    (Fixture.start (Fixture.mk_plane Fixture.no_resources "" ["/dev/drbd0"] 0))
  = (Returns ("/dev/drbd0", None),
     mk_run (Fixture.mk_plane Fixture.no_resources "" ["/dev/drbd0"] 0)
       [("linstor", ls_rsc)]).
Proof.
  refine (proj2 (proj2 (@getDevPath_falls_back_to_drbd0 _ Fixture.host
                          Fixture.json Fixture.language Fixture.r0
                          (Fixture.start
                             (Fixture.mk_plane Fixture.no_resources ""
                                ["/dev/drbd0"] 0))
                          Fixture.no_resources
                          Fixture.no_resources_list _ eq_refl _ eq_refl _))
            eq_refl).
  - vm_compute. reflexivity.
  - intros res v [].
Defined.

(** With volume 0 (minor 7) followed by volume 1 (minor 8) in one record,
    the one variable of the inner loop ends up holding volume 1, and [vol]
    points to it; with a variable per iteration [vol] keeps volume 0. *)
Example getDevPath_vol_loop_variable :
  @getDevPath_vol {| range_variables := per_statement |}
    [Fixture.state "r0" "alpha"
       [Fixture.volume 0 7 true; Fixture.volume 1 8 true]] "r0"
  = Fixture.volume 1 8 true
  /\ @getDevPath_vol {| range_variables := per_iteration |}
       [Fixture.state "r0" "alpha"
          [Fixture.volume 0 7 true; Fixture.volume 1 8 true]] "r0"
     = Fixture.volume 0 7 true.
Proof. split; reflexivity. Qed.

(** [doGetDevPath] on the minors 7 and 0. *)
Example doGetDevPath_minors :
  doGetDevPath (Fixture.volume 0 7 true) = "/dev/drbd7"
  /\ doGetDevPath (Fixture.volume 0 0 true) = "/dev/drbd0".
Proof. split; reflexivity. Qed.

(** ** Further properties of the life cycle *)

Section LifeCycle.
Context {W : Type} `{Host W} `{Json} `{Language}.

(** [validate] accepts exactly the replies all of whose return codes pass
    [linstorSuccess]. *)
Lemma validate_nil_iff (s : returnStatuses) :
  validate s = None <->
  forall message, In message s -> linstorSuccess (RetCode message) = true.
Proof.
  unfold validate. generalize s at 2 as whole.
  induction s as [|message rest IH]; intros whole; simpl.
  - split; [intros _ ? [] | reflexivity].
  - destruct (linstorSuccess (RetCode message)) eqn:Hcode; simpl.
    + rewrite IH. split.
      * intros Hrest m [<-|Hin]; auto.
      * intros Hall m Hin. apply Hall. now right.
    + split.
      * destruct (Marshal_returnStatuses whole); discriminate.
      * intros Hall. specialize (Hall message (or_introl eq_refl)). congruence.
Qed.

(** When [Exists] itself fails, [Assign] stops as well, with that error
    wrapped. *)
Lemma Assign_propagates_failed_Exists (r : Resource) (st st' : run W)
    (ok : bool) (err : error) :
  Exists r st = (Returns (ok, Some err), st') ->
  Assign r st
  = (Returns (Some (Errorf "Unable to determine if resource %s is defined %v"
                      [OString (r_Name r); OError err])), st').
Proof.
  intros Hexists. unfold Assign.
  now rewrite (bind_returns _ _ _ _ _ Hexists).
Qed.

(** When the first command of [Create] reports an error, the second is not
    run. *)
Lemma Create_stops_at_failed_definition (r : Resource) (st st' : run W)
    (err : error) :
  linstor ["create-resource-definition"; r_Name r] st
  = (Returns (Some err), st') ->
  Create r st
  = (Returns (Some (Errorf "unable to reserve resource name %s :%v"
                      [OString (r_Name r); OError err])), st').
Proof.
  intros Hfirst. unfold Create.
  now rewrite (bind_returns _ _ _ _ _ Hfirst).
Qed.

(** If [Create] fails, [CreateAndAssign] does not attempt [Assign]. *)
Lemma CreateAndAssign_stops_at_failed_Create (r : Resource)
    (st st' : run W) (err : error) :
  Create r st = (Returns (Some err), st') ->
  CreateAndAssign r st = (Returns (Some err), st').
Proof.
  intros Hcreate. unfold CreateAndAssign.
  now rewrite (bind_returns _ _ _ _ _ Hcreate).
Qed.

(** Without retries [WaitForDevPath] polls nothing, and returns the empty
    path and no error. *)
Lemma WaitForDevPath_without_retries (r : Resource) (maxRetries : Z)
    (st : run W) :
  maxRetries <= 0 ->
  WaitForDevPath r maxRetries st = (Returns (EmptyString, None), st).
Proof.
  intros Hnone. unfold WaitForDevPath.
  now replace (Z.to_nat maxRetries) with 0%nat by lia.
Qed.

(** An attempt that finds the path ends the polling at once. *)
Lemma WaitForDevPath_first_attempt (r : Resource) (maxRetries : Z)
    (st st' : run W) (path : string) (err : option error) :
  0 < maxRetries ->
  path <> EmptyString ->
  getDevPath r st = (Returns (path, err), st') ->
  WaitForDevPath r maxRetries st = (Returns (path, err), st').
Proof.
  intros Hsome Hpath Hattempt. unfold WaitForDevPath.
  destruct (Z.to_nat maxRetries) as [|n] eqn:Hn; [lia|].
  cbn [WaitForDevPath_loop].
  rewrite (bind_returns _ _ _ _ _ Hattempt).
  destruct (String.eqb_spec path "") as [|_]; [contradiction|reflexivity].
Qed.

(** [IsClient] answers false when the listing does not decode. *)
Lemma IsClient_swallows_decode_error (r : Resource) (nodeName : string)
    (st : run W) (err : error) :
  Unmarshal_resList
    (fst (fst (CombinedOutput "linstor" ls_rsc (world st)))) = inl err ->
  IsClient r nodeName st = (Returns false, ran "linstor" ls_rsc st).
Proof.
  intros Hdecode. unfold IsClient, bind. rewrite exec_ran.
  destruct (fst (CombinedOutput "linstor" ls_rsc (world st))) as [out e].
  simpl in Hdecode. now rewrite Hdecode.
Qed.

End LifeCycle.

(** [Create] on the fixture: two commands, two seconds apart, the volume
    sized in KiB. *)
Example Create_runs :
  @Create _ Fixture.host Fixture.json Fixture.r0
    (Fixture.start (Fixture.mk_plane Fixture.no_resources "" [] 0))
  = (Returns None,
     mk_run (Fixture.mk_plane Fixture.no_resources "" [] 2)
       [("linstor", ["-m"; "create-resource-definition"; "r0"]);
        ("linstor", ["-m"; "create-volume-definition"; "r0"; "1048576kib"])]).
Proof. vm_compute. reflexivity. Qed.

(** [Assign] on the fixture where r0 is on alpha only: the replica is
    there, the client on beta is created without disk. *)
Example Assign_creates_where_absent :
  @Assign _ Fixture.host Fixture.json Fixture.r0
    (Fixture.start (Fixture.mk_plane Fixture.one_node "" [] 0))
  = (Returns None,
     mk_run (Fixture.mk_plane Fixture.one_node "" [] 0)
       [("linstor", ls_rsc); ("linstor", ls_rsc); ("linstor", ls_rsc);
        ("linstor", ["-m"; "create-resource"; "r0"; "beta"; "--diskless"])]).
Proof. vm_compute. reflexivity. Qed.

(** [WaitForDevPath] on the fixture: three failed attempts, a sleep of two
    seconds after each, and the last stat error. *)
Example WaitForDevPath_runs :
  @WaitForDevPath _ Fixture.host Fixture.json Fixture.language Fixture.r0 3
    (Fixture.start (Fixture.mk_plane Fixture.one_node "" [] 0))
  = (Returns ("", Some (Errorf "Couldn't stat %s: %v"
                          [OString "/dev/drbd7";
                           OError (Foreign "lstat: no such file or directory")])),
     mk_run (Fixture.mk_plane Fixture.one_node "" [] 6)
       [("linstor", ls_rsc); ("linstor", ls_rsc); ("linstor", ls_rsc)]).
Proof. vm_compute. reflexivity. Qed.

(** [Mount] on the fixture: the device of r0 is found, formatted with ext4
    as it carries nothing, and mounted. *)
Example Mount_runs :
  @Mount _ Fixture.host Fixture.json Fixture.language
    (mk_FSUtil (Some Fixture.r0) "ext4") "/mnt/r0"
    (Fixture.start (Fixture.mk_plane Fixture.one_node "" ["/dev/drbd7"] 0))
  = (Returns None,
     mk_run (Fixture.mk_plane Fixture.one_node "ID_FS_TYPE=ext4" ["/dev/drbd7"] 0)
       [("linstor", ls_rsc);
        ("blkid", ["-o"; "udev"; "/dev/drbd7"]);
        ("mkfs", ["-t"; "ext4"; "/dev/drbd7"]);
        ("mkdir", ["-p"; "/mnt/r0"]);
        ("mount", ["/dev/drbd7"; "/mnt/r0"])]).
Proof. vm_compute. reflexivity. Qed.

(** * Further properties of the package *)

(** ** Commands to the control plane *)

Section Commands.
Context {W : Type} `{Host W} `{Json} `{Language}.

(** [linstor] runs one command and returns. *)
Lemma linstor_ran (args : list string) (st : run W) :
  exists err,
    linstor args st = (Returns err, ran "linstor" ("-m" :: args) st).
Proof.
  unfold linstor, bind. rewrite exec_ran.
  destruct (fst (CombinedOutput "linstor" ("-m" :: args) (world st)))
    as [out [err|]]; [eexists; reflexivity|].
  destruct (Unmarshal_returnStatuses out) as [err|s]; [eexists; reflexivity|].
  destruct (validate s); eexists; reflexivity.
Qed.

(** [linstor] returns nil on the accepted replies and on no other. *)
Lemma linstor_accepts (args : list string) (st : run W) :
  fst (linstor args st) = Returns None
  <-> accepted (fst (CombinedOutput "linstor" ("-m" :: args) (world st))).
Proof.
  unfold accepted, linstor, bind. rewrite exec_ran.
  destruct (fst (CombinedOutput "linstor" ("-m" :: args) (world st)))
    as [out [err|]].
  - split; [discriminate|]. intros (out' & s & Hout & _). discriminate.
  - destruct (Unmarshal_returnStatuses out) as [err|s] eqn:Hdecode.
    + split; [discriminate|].
      intros (out' & s & [= <-] & Hs & _). congruence.
    + destruct (validate s) as [err|] eqn:Hvalid.
      * split; [discriminate|].
        intros (out' & s' & [= <-] & Hs & Hall).
        assert (s' = s) as -> by congruence.
        apply validate_nil_iff in Hall. congruence.
      * split; [|reflexivity]. intros _. exists out, s.
        split; [reflexivity|]. split; [exact Hdecode|].
        now apply validate_nil_iff.
Qed.

Lemma linstorSuccess_mask (retcode : Z) :
  linstorSuccess retcode = true <-> Z.land retcode 0xC000000000000000 = 0.
Proof.
  unfold linstorSuccess.
  change (Z.lor (Z.lor maskError maskWarn) maskInfo) with 0xC000000000000000.
  apply Z.eqb_eq.
Qed.

(** X1.  [validate] returns nil exactly when every status of the reply has
    bits 63 and 62 of its return code clear, so also on the empty reply.
    Otherwise it returns the error of [json.Marshal] when serializing
    fails, and else the [error status] error, whose text carries the whole
    reply, not the failing status alone. *)
Theorem validate_accepts_iff (s : returnStatuses) :
  (validate s = None <->
   forall message, In message s ->
     Z.land (RetCode message) 0xC000000000000000 = 0)
  /\ (validate s <> None ->
      validate s
      = match Marshal_returnStatuses s with
        | inl err => Some err
        | inr msg =>
          Some (Errorf "error status from one or more linstor operations: %s"
                  [OString msg])
        end).
Proof.
  split.
  - rewrite validate_nil_iff.
    split; intros Hall message Hin; apply linstorSuccess_mask, Hall, Hin.
  - unfold validate. generalize s at 1 3 as messages.
    induction messages as [|message rest IH]; simpl; [congruence|].
    destruct (linstorSuccess (RetCode message)); simpl; [exact IH|].
    intros _. reflexivity.
Qed.

(** X2.  [linstor] runs exactly one command, [linstor -m] followed by its
    arguments, and never panics.  It returns nil exactly when that command
    exits without error, its output decodes to a list of statuses, and
    every status passes [linstorSuccess]: a clean exit alone is not
    enough. *)
Theorem linstor_nil_iff (args : list string) (st : run W) :
  snd (linstor args st) = ran "linstor" ("-m" :: args) st
  /\ (exists err, fst (linstor args st) = Returns err)
  /\ (fst (linstor args st) = Returns None <->
      exists out s,
        fst (CombinedOutput "linstor" ("-m" :: args) (world st)) = (out, None)
        /\ Unmarshal_returnStatuses out = inr s
        /\ forall message, In message s ->
             linstorSuccess (RetCode message) = true).
Proof.
  split; [|split].
  - destruct (linstor_ran args st) as [err ->]. reflexivity.
  - destruct (linstor_ran args st) as [err ->]. now exists err.
  - apply linstor_accepts.
Qed.

(** [Create], step by step. *)
Lemma Create_run (r : Resource) (st : run W) :
  Create r st
  = match linstor ["create-resource-definition"; r_Name r] st with
    | (Returns (Some err), st1) =>
      (Returns (Some (Errorf "unable to reserve resource name %s :%v"
                        [OString (r_Name r); OError err])), st1)
    | (Returns None, st1) =>
      match
        linstor ["create-volume-definition"; r_Name r;
                 format_d (SizeKiB r) +:+ "kib"] (slept 2 st1)
      with
      | (Returns (Some err), st2) =>
        (Returns (Some (Errorf "unable to reserve resource name %s :%v"
                          [OString (r_Name r); OError err])), st2)
      | other => other
      end
    | (Panics message, st1) => (Panics message, st1)
    end.
Proof.
  unfold Create. unfold bind at 1.
  destruct (linstor ["create-resource-definition"; r_Name r] st)
    as [[[err|]|message] st1]; try reflexivity.
  assert (Hsleep : sleep 2 st1 = (Returns tt, slept 2 st1)) by reflexivity.
  rewrite (bind_returns _ _ _ _ _ Hsleep). unfold bind.
  now destruct (linstor _ (slept 2 st1)) as [[[err|]|message] st2].
Qed.

(** X3.  [Create] never panics and runs its two commands in order:
    [create-resource-definition] with the name, then, after a sleep of two
    seconds, [create-volume-definition] with the name and the size written
    as a decimal number followed by [kib].  The second command is run only
    if the first was accepted; after a refused first command [Create]
    returns an error having run nothing else.  [Create] returns nil exactly
    when both are accepted. *)
Theorem Create_second_command_after_first (r : Resource) (st : run W) :
  (exists err, fst (Create r st) = Returns err)
  /\ (fst (linstor ["create-resource-definition"; r_Name r] st) <> Returns None ->
      snd (Create r st)
      = ran "linstor" ["-m"; "create-resource-definition"; r_Name r] st
      /\ fst (Create r st) <> Returns None)
  /\ (fst (linstor ["create-resource-definition"; r_Name r] st) = Returns None ->
      snd (Create r st)
      = ran "linstor"
          ["-m"; "create-volume-definition"; r_Name r;
           format_d (SizeKiB r) +:+ "kib"]
          (slept 2 (ran "linstor" ["-m"; "create-resource-definition"; r_Name r] st))
      /\ (fst (Create r st) = Returns None <->
          fst (linstor ["create-volume-definition"; r_Name r;
                        format_d (SizeKiB r) +:+ "kib"]
                 (slept 2 (ran "linstor"
                             ["-m"; "create-resource-definition"; r_Name r] st)))
          = Returns None)).
Proof.
  rewrite Create_run.
  destruct (linstor_ran ["create-resource-definition"; r_Name r] st)
    as [first ->]. cbn [fst].
  destruct first as [err|].
  - split; [eexists; reflexivity|]. split; [|discriminate].
    intros _. split; [reflexivity|discriminate].
  - destruct (linstor_ran
                ["create-volume-definition"; r_Name r;
                 format_d (SizeKiB r) +:+ "kib"]
                (slept 2 (ran "linstor"
                            ["-m"; "create-resource-definition"; r_Name r] st)))
      as [second ->]. cbn [fst].
    destruct second as [err|].
    + split; [eexists; reflexivity|]. split; [congruence|].
      intros _. split; [reflexivity|]. split; discriminate.
    + split; [eexists; reflexivity|]. split; [congruence|].
      intros _. split; [reflexivity|]. split; reflexivity.
Qed.

(** Each reader leaves the state one listing query further. *)
Lemma Exists_ran (r : Resource) (st : run W) :
  snd (Exists r st) = ran "linstor" ls_rsc st.
Proof.
  unfold Exists, bind. rewrite exec_ran.
  destruct (fst (CombinedOutput "linstor" ls_rsc (world st))) as [out [err|]];
    reflexivity.
Qed.

Lemma OnNode_ran (r : Resource) (nodeName : string) (st : run W) :
  snd (OnNode r nodeName st) = ran "linstor" ls_rsc st.
Proof.
  unfold OnNode, bind. rewrite exec_ran.
  destruct (fst (CombinedOutput "linstor" ls_rsc (world st))) as [out [err|]];
    [reflexivity|].
  destruct (Unmarshal_resList out) as [err|l]; [reflexivity|].
  unfold lift. now destruct (doResOnNode l (r_Name r) nodeName).
Qed.

Lemma getDevPath_ran (r : Resource) (st : run W) :
  snd (getDevPath r st) = ran "linstor" ls_rsc st.
Proof.
  unfold getDevPath, bind. rewrite exec_ran.
  destruct (fst (CombinedOutput "linstor" ls_rsc (world st))) as [out [err|]];
    [reflexivity|].
  destruct (Unmarshal_resList out) as [err|l]; [reflexivity|].
  destruct (l !! 0%nat) as [first|]; [|reflexivity].
  unfold lstat. now destruct (Lstat _ _).
Qed.

(** The log only grows under a loop of [Assign], and [Assign] starts with
    the listing query of [Exists]. *)
Lemma Assign_nodes_extends (r : Resource) (create : string -> list string)
    (nodes : list string) :
  forall st : run W,
  exists more,
    issued (snd (Assign_nodes r create nodes st)) = (issued st ++ more)%list.
Proof.
  induction nodes as [|node rest IH]; intros st.
  - exists []. simpl. now rewrite app_nil_r.
  - cbn [Assign_nodes]. unfold bind at 1.
    pose proof (OnNode_ran r node st) as Hran.
    destruct (OnNode r node st) as [[[present [err|]]|message] st1];
      cbn [snd] in Hran; subst st1.
    + exists [("linstor", ls_rsc)]. reflexivity.
    + destruct present; cbn [negb].
      * destruct (IH (ran "linstor" ls_rsc st)) as [more ->].
        exists (("linstor", ls_rsc) :: more). simpl.
        now rewrite <- app_assoc.
      * destruct (linstor_ran (create node) (ran "linstor" ls_rsc st))
          as [err Hcreate].
        rewrite (bind_returns _ _ _ _ _ Hcreate).
        destruct err as [err|].
        -- eexists. simpl. rewrite <- app_assoc. reflexivity.
        -- destruct (IH (ran "linstor" ("-m" :: create node)
                           (ran "linstor" ls_rsc st))) as [more ->].
           eexists. simpl. rewrite <- !app_assoc. reflexivity.
    + exists [("linstor", ls_rsc)]. reflexivity.
Qed.

Lemma Assign_starts_with_listing (r : Resource) (st : run W) :
  exists more,
    issued (snd (Assign r st))
    = (issued st ++ ("linstor", ls_rsc) :: more)%list.
Proof.
  unfold Assign. unfold bind at 1.
  pose proof (Exists_ran r st) as Hran.
  destruct (Exists r st) as [[[ok [err|]]|message] st1];
    cbn [snd] in Hran; subst st1.
  - now exists [].
  - destruct ok; cbn [negb]; [|now exists []].
    unfold bind at 1.
    destruct (Assign_nodes_extends r (create_with_storage r) (NodeList r)
                (ran "linstor" ls_rsc st)) as [more Hmore].
    destruct (Assign_nodes r (create_with_storage r) (NodeList r)
                (ran "linstor" ls_rsc st)) as [[[err|]|message] st1];
      cbn [snd] in Hmore.
    + exists more. cbn [snd ret]. rewrite Hmore. simpl.
      now rewrite <- app_assoc.
    + destruct (Assign_nodes_extends r (create_diskless r) (ClientList r) st1)
        as [more' ->].
      exists (more ++ more')%list. rewrite Hmore. simpl.
      now rewrite <- !app_assoc.
    + exists more. cbn [snd]. rewrite Hmore. simpl. now rewrite <- app_assoc.
  - now exists [].
Qed.

(** X4.  When [Create] does not return nil, [CreateAndAssign] returns what
    [Create] returned, error unchanged, in the state [Create] left: [Assign]
    is not attempted and no listing query is run.  When [Create] returns
    nil, [CreateAndAssign] is [Assign] from the state [Create] left, so its
    commands are the two of [Create] and then those of [Assign], which
    begin with the listing query of [Exists]: it adds no command of its
    own, and so undoes nothing of [Create] when [Assign] fails. *)
Theorem CreateAndAssign_commands (r : Resource) (st : run W) :
  (fst (Create r st) <> Returns None -> CreateAndAssign r st = Create r st)
  /\ (fst (Create r st) = Returns None ->
      CreateAndAssign r st = Assign r (snd (Create r st))
      /\ exists more,
           issued (snd (CreateAndAssign r st))
           = (issued st
              ++ [("linstor", ["-m"; "create-resource-definition"; r_Name r]);
                  ("linstor", ["-m"; "create-volume-definition"; r_Name r;
                               format_d (SizeKiB r) +:+ "kib"]);
                  ("linstor", ls_rsc)]
              ++ more)%list).
Proof.
  split.
  - intros Hfailed. unfold CreateAndAssign, bind.
    destruct (Create r st) as [[[err|]|message] st1]; try reflexivity.
    now destruct Hfailed.
  - intros Hcreated.
    assert (Hrun : CreateAndAssign r st = Assign r (snd (Create r st))).
    { unfold CreateAndAssign. unfold bind at 1.
      destruct (Create r st) as [[[err|]|message] st1]; try discriminate.
      cbn [snd]. unfold bind.
      now destruct (Assign r st1) as [[[err|]|message] st2]. }
    split; [exact Hrun|]. rewrite Hrun.
    assert (Hstate : snd (Create r st)
                     = ran "linstor"
                         ["-m"; "create-volume-definition"; r_Name r;
                          format_d (SizeKiB r) +:+ "kib"]
                         (slept 2 (ran "linstor"
                                     ["-m"; "create-resource-definition";
                                      r_Name r] st))).
    { revert Hcreated. rewrite Create_run.
      destruct (linstor_ran ["create-resource-definition"; r_Name r] st)
        as [[err|] ->]; [discriminate|].
      destruct (linstor_ran
                  ["create-volume-definition"; r_Name r;
                   format_d (SizeKiB r) +:+ "kib"]
                  (slept 2 (ran "linstor"
                              ["-m"; "create-resource-definition"; r_Name r]
                              st)))
        as [[err|] ->]; [discriminate|reflexivity]. }
    rewrite Hstate.
    destruct (Assign_starts_with_listing r
                (ran "linstor"
                   ["-m"; "create-volume-definition"; r_Name r;
                    format_d (SizeKiB r) +:+ "kib"]
                   (slept 2 (ran "linstor"
                               ["-m"; "create-resource-definition"; r_Name r] st))))
      as [more ->].
    exists more. simpl. now rewrite <- !app_assoc.
Qed.

(** X5.  [Unassign] and [Delete] each run exactly one command, whatever
    comes back and without a listing query before it: [linstor -m
    delete-resource] with the name and the node, and [linstor -m
    delete-resource-definition] with the name.  Neither panics, and each
    returns nil exactly when its command exits without error and prints
    statuses that all pass [linstorSuccess]. *)
Theorem Unassign_Delete_run_one_command (r : Resource) (nodeName : string)
    (st : run W) :
  (snd (Unassign r nodeName st)
   = ran "linstor" ["-m"; "delete-resource"; r_Name r; nodeName] st
   /\ (exists err, fst (Unassign r nodeName st) = Returns err)
   /\ (fst (Unassign r nodeName st) = Returns None <->
       accepted (fst (CombinedOutput "linstor"
                        ["-m"; "delete-resource"; r_Name r; nodeName]
                        (world st)))))
  /\ (snd (Delete r st)
      = ran "linstor" ["-m"; "delete-resource-definition"; r_Name r] st
      /\ (exists err, fst (Delete r st) = Returns err)
      /\ (fst (Delete r st) = Returns None <->
          accepted (fst (CombinedOutput "linstor"
                           ["-m"; "delete-resource-definition"; r_Name r]
                           (world st))))).
Proof.
  split.
  - rewrite <- linstor_accepts. unfold Unassign.
    destruct (linstor_ran ["delete-resource"; r_Name r; nodeName] st)
      as [[err|] Hrun];
      rewrite (bind_returns _ _ _ _ _ Hrun), Hrun;
      (split; [reflexivity|]); (split; [eexists; reflexivity|]);
      split; (discriminate || reflexivity).
  - rewrite <- linstor_accepts. unfold Delete.
    destruct (linstor_ran ["delete-resource-definition"; r_Name r] st)
      as [[err|] Hrun];
      rewrite (bind_returns _ _ _ _ _ Hrun), Hrun;
      (split; [reflexivity|]); (split; [eexists; reflexivity|]);
      split; (discriminate || reflexivity).
Qed.

(** X6.  [Exists], [OnNode], [IsClient] and [getDevPath] each run exactly
    one command, the listing query [linstor -m ls-rsc], on every path
    through them, the failing and the panicking ones included: a reader
    neither retries nor changes anything. *)
Theorem readers_run_one_listing_query (r : Resource) (nodeName : string)
    (st : run W) :
  snd (Exists r st) = ran "linstor" ls_rsc st
  /\ snd (OnNode r nodeName st) = ran "linstor" ls_rsc st
  /\ snd (IsClient r nodeName st) = ran "linstor" ls_rsc st
  /\ snd (getDevPath r st) = ran "linstor" ls_rsc st.
Proof.
  split; [apply Exists_ran|]. split; [apply OnNode_ran|].
  split; [|apply getDevPath_ran].
  unfold IsClient, bind. rewrite exec_ran.
  destruct (fst (CombinedOutput "linstor" ls_rsc (world st))) as [out err].
  destruct (Unmarshal_resList out) as [e|l]; [reflexivity|].
  unfold lift. now destruct (doIsClient r l nodeName).
Qed.

(** X7.  When the listing query exits with an error, [Exists] and [OnNode]
    return false and [getDevPath] the empty path, each with that error as
    it is, and none of them looks at the output.  [IsClient] drops the
    error: it decodes the output all the same and answers from it. *)
Theorem failed_listing_query (r : Resource) (nodeName out : string)
    (err : error) (st : run W) :
  fst (CombinedOutput "linstor" ls_rsc (world st)) = (out, Some err) ->
  fst (Exists r st) = Returns (false, Some err)
  /\ fst (OnNode r nodeName st) = Returns (false, Some err)
  /\ fst (getDevPath r st) = Returns (EmptyString, Some err)
  /\ fst (IsClient r nodeName st)
     = match Unmarshal_resList out with
       | inl _ => Returns false
       | inr list => doIsClient r list nodeName
       end.
Proof.
  intros Hout.
  unfold Exists, OnNode, getDevPath, IsClient, bind.
  rewrite exec_ran, Hout.
  repeat split.
  destruct (Unmarshal_resList out) as [e|l]; reflexivity.
Qed.

(** X8.  When the listing query exits without error and its output does
    not decode, [Exists] and [OnNode] return false with the decode error
    wrapped together with the output, [getDevPath] returns the empty path
    with the decode error as it is, and [IsClient] returns false: none of
    them panics. *)
Theorem undecodable_listing (r : Resource) (nodeName out : string)
    (err : error) (st : run W) :
  fst (CombinedOutput "linstor" ls_rsc (world st)) = (out, None) ->
  Unmarshal_resList out = inl err ->
  fst (Exists r st)
  = Returns (false,
             Some (Errorf "couldn't Unmarshal %s :%v" [OString out; OError err]))
  /\ fst (OnNode r nodeName st)
     = Returns (false,
                Some (Errorf "couldn't Unmarshal %s :%v"
                        [OString out; OError err]))
  /\ fst (getDevPath r st) = Returns (EmptyString, Some err)
  /\ fst (IsClient r nodeName st) = Returns false.
Proof.
  intros Hout Hdecode.
  unfold Exists, OnNode, getDevPath, IsClient, bind.
  rewrite exec_ran, Hout. unfold lift, doResExists. rewrite Hdecode.
  repeat split.
Qed.

(** A record with the name on the node is a record with the name. *)
Lemma doResOnNode_resources_defined (resources : list resInfo)
    (resName nodeName : string) :
  doResOnNode_resources resources resName nodeName = true ->
  doResExists_resources resources resName = true.
Proof.
  induction resources as [|res rest IH]; simpl; [discriminate|].
  destruct (Name res =? resName)%string; [reflexivity|]. exact IH.
Qed.

(** X9.  On one state of the host, [OnNode] answering true for some node
    implies [Exists] answering true: a resource found on a node is found
    defined. *)
Theorem OnNode_implies_Exists (r : Resource) (nodeName : string) (st : run W) :
  fst (OnNode r nodeName st) = Returns (true, None) ->
  fst (Exists r st) = Returns (true, None).
Proof.
  unfold OnNode, Exists, bind. rewrite exec_ran.
  destruct (fst (CombinedOutput "linstor" ls_rsc (world st))) as [out [err|]];
    [discriminate|].
  unfold lift, doResExists, doResOnNode.
  destruct (Unmarshal_resList out) as [err|l]; [discriminate|].
  destruct (l !! 0%nat) as [first|]; [|discriminate].
  cbn [fst ret]. intros [= Hpresent].
  now rewrite (doResOnNode_resources_defined _ _ _ Hpresent).
Qed.

End Commands.

(** X7, witness: the control plane prints the two-node listing and exits
    with an error: [Exists] reports the error, [IsClient] says that r0 is
    a client on beta. *)
Lemma failed_listing_query_witness :
  fst (@Exists _ Outage.host Fixture.json Fixture.r0
         (mk_run (Fixture.two_nodes, false) []))
  = Returns (false, Some (Foreign "exit status 1"))
  /\ fst (@IsClient _ Outage.host Fixture.json Fixture.r0 "beta"
            (mk_run (Fixture.two_nodes, false) []))
     = Returns true.
Proof.
  pose proof (@failed_listing_query _ Outage.host Fixture.json
                Fixture.language Fixture.r0 "beta" Fixture.two_nodes
                (Foreign "exit status 1")
                (mk_run (Fixture.two_nodes, false) []) eq_refl) as Hfailed.
  split; [exact (proj1 Hfailed)|].
  exact (eq_trans (proj2 (proj2 (proj2 Hfailed)))
           ltac:(vm_compute; reflexivity)).
Defined.

(** X8, witness: the control plane prints a line that is not JSON. *)
Lemma undecodable_listing_witness :
  fst (@OnNode _ Fixture.host Fixture.json Fixture.r0 "alpha"
         (Fixture.start (Fixture.mk_plane "no controller" "" [] 0)))
  = Returns (false,
             Some (Errorf "couldn't Unmarshal %s :%v"
                     [OString "no controller"; OError JsonText.syntax_error]))
  /\ fst (@getDevPath _ Fixture.host Fixture.json Fixture.language Fixture.r0
            (Fixture.start (Fixture.mk_plane "no controller" "" [] 0)))
     = Returns ("", Some JsonText.syntax_error).
Proof.
  pose proof (@undecodable_listing _ Fixture.host Fixture.json
                Fixture.language Fixture.r0 "alpha" "no controller"
                JsonText.syntax_error
                (Fixture.start (Fixture.mk_plane "no controller" "" [] 0))
                eq_refl ltac:(vm_compute; reflexivity)) as Hbad.
  split; [exact (proj1 (proj2 Hbad)) | exact (proj1 (proj2 (proj2 Hbad)))].
Defined.

(** X9, witness: r0 is on beta in the two-node listing. *)
Lemma OnNode_implies_Exists_witness :
  fst (@Exists _ Fixture.host Fixture.json Fixture.r0
         (Fixture.start (Fixture.mk_plane Fixture.two_nodes "" [] 0)))
  = Returns (true, None).
Proof.
  apply (@OnNode_implies_Exists _ Fixture.host Fixture.json Fixture.r0 "beta").
  vm_compute. reflexivity.
Defined.

(** ** Which record decides *)

Lemma doIsClient_volumes_skip (skipped rest : list volInfo) (v : volInfo) :
  (forall v', In v' skipped -> VlmNr v' <> 0) ->
  VlmNr v = 0 ->
  doIsClient_volumes (skipped ++ v :: rest) = Some (negb (HasDisk v)).
Proof.
  intros Hskipped Hnr.
  induction skipped as [|x skipped IH]; simpl.
  - apply Z.eqb_eq in Hnr. now rewrite Hnr.
  - destruct (Z.eqb_spec (VlmNr x) 0) as [Hx|_].
    + destruct (Hskipped x (or_introl eq_refl) Hx).
    + apply IH. intros v' Hin. apply Hskipped. now right.
Qed.

Lemma doIsClient_volumes_without_volume0 (volumes : list volInfo) :
  (forall v, In v volumes -> VlmNr v <> 0) ->
  doIsClient_volumes volumes = None.
Proof.
  induction volumes as [|x rest IH]; intros Hnone; [reflexivity|]. simpl.
  destruct (Z.eqb_spec (VlmNr x) 0) as [Hx|_].
  - destruct (Hnone x (or_introl eq_refl) Hx).
  - apply IH. intros v Hin. apply Hnone. now right.
Qed.

(** X10.  Among the resource-state records of the listing's first element,
    [doIsClient] answers from the first record with the name and the node
    that carries a volume numbered 0, and from the first such volume of
    it: the answer is the negation of that volume's [HasDisk], whatever
    later volumes numbered 0 and later matching records say.  Matching
    records before it that carry no volume numbered 0 are passed over. *)
Theorem doIsClient_first_volume0_decides (r : Resource) (nodeName : string)
    (first : resListEntry) (others : resList)
    (before after : list resState) (res : resState)
    (skipped rest : list volInfo) (v : volInfo) :
  ResourceStates first = (before ++ res :: after)%list ->
  r_Name r = RscName res ->
  nodeName = rs_NodeName res ->
  VlmStates res = (skipped ++ v :: rest)%list ->
  VlmNr v = 0 ->
  (forall v', In v' skipped -> VlmNr v' <> 0) ->
  (forall res' v', In res' before ->
     r_Name r = RscName res' -> nodeName = rs_NodeName res' ->
     In v' (VlmStates res') -> VlmNr v' <> 0) ->
  doIsClient r (first :: others) nodeName = Returns (negb (HasDisk v)).
Proof.
  intros Hstates Hname Hnode Hvolumes Hnr Hskipped Hbefore.
  unfold doIsClient. cbn [lookup list_lookup]. rewrite Hstates. f_equal.
  clear Hstates.
  induction before as [|res' before IH]; cbn [app doIsClient_states].
  - rewrite <- Hname, <- Hnode, !String.eqb_refl. cbn [andb].
    now rewrite Hvolumes, (doIsClient_volumes_skip _ _ _ Hskipped Hnr).
  - assert (Hrest : doIsClient_states (before ++ res :: after) (r_Name r) nodeName
                    = negb (HasDisk v)).
    { apply IH. intros res'' v' Hin. apply Hbefore. now right. }
    destruct (String.eqb_spec (r_Name r) (RscName res')) as [Hn|_];
      [|exact Hrest].
    destruct (String.eqb_spec nodeName (rs_NodeName res')) as [Hd|_];
      [|exact Hrest].
    cbn [andb].
    rewrite doIsClient_volumes_without_volume0; [exact Hrest|].
    intros v' Hv'. exact (Hbefore res' v' (or_introl eq_refl) Hn Hd Hv').
Qed.

(** X10, witness: of two records of r0 on beta the first decides, by the
    first of its two volumes numbered 0, the one without disk. *)
Lemma doIsClient_first_volume0_decides_witness :
  doIsClient Fixture.r0
    [mk_resListEntry
       [Fixture.state "r0" "alpha" [Fixture.volume 0 7 true];
        Fixture.state "r0" "beta"
          [Fixture.volume 1 8 true; Fixture.volume 0 9 false;
           Fixture.volume 0 10 true];
        Fixture.state "r0" "beta" [Fixture.volume 0 11 true]] []]
    "beta"
  = Returns true.
Proof.
  refine (doIsClient_first_volume0_decides Fixture.r0 "beta"
            (mk_resListEntry
               [Fixture.state "r0" "alpha" [Fixture.volume 0 7 true];
                Fixture.state "r0" "beta"
                  [Fixture.volume 1 8 true; Fixture.volume 0 9 false;
                   Fixture.volume 0 10 true];
                Fixture.state "r0" "beta" [Fixture.volume 0 11 true]] []) []
            [Fixture.state "r0" "alpha" [Fixture.volume 0 7 true]]
            [Fixture.state "r0" "beta" [Fixture.volume 0 11 true]]
            (Fixture.state "r0" "beta"
               [Fixture.volume 1 8 true; Fixture.volume 0 9 false;
                Fixture.volume 0 10 true])
            [Fixture.volume 1 8 true] [Fixture.volume 0 10 true]
            (Fixture.volume 0 9 false)
            eq_refl eq_refl eq_refl eq_refl eq_refl _ _).
  - intros v' [<-|[]]. discriminate.
  - intros res' v' [<-|[]] _ Hnode. discriminate Hnode.
Defined.

Lemma filter_volume0_nonempty (volumes : list volInfo) :
  has_volume0 volumes = true ->
  exists y ys, List.filter is_volume0 volumes = y :: ys.
Proof.
  induction volumes as [|x rest IH]; [discriminate|].
  unfold has_volume0. cbn [existsb List.filter].
  destruct (is_volume0 x); [eauto|]. exact IH.
Qed.

(** X11.  In [getDevPath] the last record with the resource's name that
    carries a volume numbered 0 decides, and [vol = &v] makes the result
    depend on how the inner [for ... range] declares [v].  With one
    variable for the statement, as in Go before 1.22, [*vol] ends as the
    final entry of that record's volume list, whatever its number, so the
    path can be made from the minor of a volume that is not volume 0.
    With a variable per iteration it is the record's last volume
    numbered 0. *)
Theorem getDevPath_vol_by_loop_variable `{Language}
    (before after : list resState) (res : resState) (name : string)
    (volumes : list volInfo) (v : volInfo) :
  name = RscName res ->
  VlmStates res = (volumes ++ [v])%list ->
  has_volume0 (VlmStates res) = true ->
  (forall res' v', In res' after -> name = RscName res' ->
     In v' (VlmStates res') -> VlmNr v' <> 0) ->
  getDevPath_vol (before ++ res :: after) name
  = match range_variables with
    | per_statement => v
    | per_iteration =>
      List.last (List.filter is_volume0 (VlmStates res)) volInfo_zero
    end.
Proof.
  intros Hname Hvolumes Hhas Hafter.
  rewrite getDevPath_vol_chosen, chosen_volume_app, chosen_volume_cons.
  rewrite chosen_volume_unchanged by exact Hafter.
  rewrite <- Hname, String.eqb_refl.
  destruct range_variables; unfold decided.
  - rewrite Hhas, Hvolumes. apply last_last.
  - destruct (filter_volume0_nonempty _ Hhas) as (y & ys & ->).
    apply last_nonempty_default.
Qed.

(** X11, witness: volume 0 (minor 7) followed by volume 1 (minor 8) in the
    one record of r0, under the rule of the Go of the time: [*vol] is
    volume 1. *)
Lemma getDevPath_vol_by_loop_variable_witness :
  @getDevPath_vol Fixture.language
    [Fixture.state "r0" "alpha"
       [Fixture.volume 0 7 true; Fixture.volume 1 8 true]] "r0"
  = Fixture.volume 1 8 true.
Proof.
  refine (@getDevPath_vol_by_loop_variable Fixture.language [] []
            (Fixture.state "r0" "alpha"
               [Fixture.volume 0 7 true; Fixture.volume 1 8 true])
            "r0" [Fixture.volume 0 7 true] (Fixture.volume 1 8 true)
            eq_refl eq_refl eq_refl _).
  intros res' v' [].
Defined.

(** [%d] writes different integers differently. *)
Lemma format_d_injective (n m : Z) : format_d n = format_d m -> n = m.
Proof.
  unfold format_d. intros Hsame.
  assert (Hproper : forall z,
            DecimalString.NilZero.int_of_string
              (DecimalString.NilZero.string_of_int (Z.to_int z))
            = Some (Z.to_int z)).
  { intros z. apply DecimalString.NilZero.isi; destruct z; try discriminate.
    - intros [= Hnil]. exact (DecimalPos.Unsigned.to_uint_nonnil p Hnil).
    - intros [= Hnil]. exact (DecimalPos.Unsigned.to_uint_nonnil p Hnil). }
  apply DecimalZ.to_int_inj.
  pose proof (Hproper n) as Hn. rewrite Hsame, Hproper in Hn. congruence.
Qed.

Lemma doGetDevPath_nonempty (vol : volInfo) :
  (doGetDevPath vol =? "")%string = false.
Proof. reflexivity. Qed.

(** X12.  The path [doGetDevPath] makes depends on the minor number of the
    volume and on nothing else, and volumes with different minor numbers
    get different paths. *)
Theorem doGetDevPath_injective (vol vol' : volInfo) :
  doGetDevPath vol = doGetDevPath vol' <-> VlmMinorNr vol = VlmMinorNr vol'.
Proof.
  unfold doGetDevPath. split.
  - intros Hsame. apply format_d_injective.
    change ("/dev/drbd" +:+ format_d (VlmMinorNr vol))
      with (String "/" (String "d" (String "e" (String "v" (String "/"
             (String "d" (String "r" (String "b" (String "d"
               (format_d (VlmMinorNr vol))))))))))) in Hsame.
    change ("/dev/drbd" +:+ format_d (VlmMinorNr vol'))
      with (String "/" (String "d" (String "e" (String "v" (String "/"
             (String "d" (String "r" (String "b" (String "d"
               (format_d (VlmMinorNr vol'))))))))))) in Hsame.
    congruence.
  - intros ->. reflexivity.
Qed.

(** ** The probe and the format guard *)

Lemma Split_append (a b : string) (sep : ascii) :
  contains sep a = false ->
  Split (a +:+ String sep b) sep = a :: Split b sep.
Proof.
  induction a as [|c a IH]; intros Hnone.
  - change (EmptyString +:+ String sep b) with (String sep b).
    cbn [Split]. now rewrite Ascii.eqb_refl.
  - change (String c a +:+ String sep b) with (String c (a +:+ String sep b)).
    cbn [contains] in Hnone. apply orb_false_iff in Hnone as [Hc Ha].
    cbn [Split]. now rewrite Hc, (IH Ha).
Qed.

Lemma append_empty (a : string) : a +:+ EmptyString = a.
Proof.
  induction a as [|c a IH]; [reflexivity|].
  change (String c a +:+ EmptyString) with (String c (a +:+ EmptyString)).
  now rewrite IH.
Qed.

(** Of several tokens with the key the last one decides, by its second
    piece. *)
Lemma attributes_last_token (key value token : string)
    (pieces before after : list string) (m : gmap string string) :
  Split token "="%char = key :: value :: pieces ->
  (forall token', In token' after -> has_key key token' = false) ->
  attributes (before ++ token :: after) m !! key = Some value.
Proof.
  intros Hsplit Hafter.
  rewrite attributes_app.
  change (attributes (token :: after) (attributes before m))
    with (attributes after
            match Split token "="%char with
            | p0 :: p1 :: _ => <[p0:=p1]> (attributes before m)
            | _ => attributes before m
            end).
  rewrite attributes_other_keys by exact Hafter.
  rewrite Hsplit. apply lookup_insert_eq.
Qed.

(** X13.  When every token of the probe output has the separator, the last
    token with the key [ID_FS_TYPE] decides, whatever earlier tokens with
    the key say, and its value is what stands between the first separator
    and the second, or the end of the token: [ID_FS_TYPE=ext4=rw] gives
    [ext4].  An empty value is returned as it is, the empty type and no
    error, which is also the answer for a device without file system. *)
Theorem doCheckFSType_last_token_decides (s value tail : string)
    (before after : list string) :
  Fields s = (before ++ (FSKey +:+ "=" +:+ value +:+ tail) :: after)%list ->
  contains "="%char value = false ->
  tail = EmptyString \/ (exists t, tail = String "="%char t) ->
  (forall token, In token (before ++ after) -> contains "="%char token = true) ->
  (forall token, In token after -> has_key FSKey token = false) ->
  doCheckFSType s = (value, None).
Proof.
  intros Hfields Hvalue Htail Hformed Hafter.
  assert (Hsplit : exists pieces,
            Split (FSKey +:+ "=" +:+ value +:+ tail) "="%char
            = FSKey :: value :: pieces).
  { change (FSKey +:+ "=" +:+ value +:+ tail)
      with (FSKey +:+ String "="%char (value +:+ tail)).
    rewrite Split_append by reflexivity.
    destruct Htail as [->|[t ->]].
    - rewrite append_empty, (Split_without_separator _ _ Hvalue). now exists [].
    - rewrite (Split_append _ _ _ Hvalue). eauto. }
  destruct Hsplit as [pieces Hsplit].
  unfold doCheckFSType. rewrite Hfields, length_app. cbn [length].
  replace (length before + S (length after) =? 0)%nat with false
    by (symmetry; apply Nat.eqb_neq; lia).
  rewrite doCheckFSType_pairs_well_formed.
  - now rewrite (attributes_last_token FSKey value _ pieces before after ∅
                   Hsplit Hafter).
  - intros token Hin. apply in_app_or in Hin as [Hin|[<-|Hin]].
    + apply Hformed, in_or_app. now left.
    + exact (proj1 (Split_two_pieces _ _ _ _ _ Hsplit)).
    + apply Hformed, in_or_app. now right.
Qed.

(** X13, witness: a repeated key with a second separator in the deciding
    token, and a key with an empty value. *)
Lemma doCheckFSType_last_token_decides_witness :
  doCheckFSType "ID_FS_TYPE=xfs ID_FS_TYPE=ext4=rw ID_FS_USAGE=filesystem"
  = ("ext4", None)
  /\ doCheckFSType "ID_FS_UUID=0a1b ID_FS_TYPE=" = ("", None).
Proof.
  split.
  - refine (doCheckFSType_last_token_decides
              "ID_FS_TYPE=xfs ID_FS_TYPE=ext4=rw ID_FS_USAGE=filesystem"
              "ext4" "=rw" ["ID_FS_TYPE=xfs"] ["ID_FS_USAGE=filesystem"]
              eq_refl eq_refl (or_intror (ex_intro _ "rw" eq_refl)) _ _).
    + simpl. intros token [<-|[<-|[]]]; reflexivity.
    + simpl. intros token [<-|[]]. reflexivity.
  - refine (doCheckFSType_last_token_decides "ID_FS_UUID=0a1b ID_FS_TYPE="
              EmptyString EmptyString ["ID_FS_UUID=0a1b"] [] eq_refl eq_refl (or_introl eq_refl)
              _ _).
    + simpl. intros token [<-|[]]. reflexivity.
    + intros token [].
Defined.

Section Probe.
Context {W : Type} `{Host W}.

(** X14.  [safeFormat] never panics and runs [blkid -o udev] on the device
    first.  It runs one more command, [mkfs -t] with the desired type on
    the device, exactly when what [blkid] printed parses without error to
    the empty type and the desired type is not empty; in every other case,
    a probe output that does not parse included, [blkid] is all it runs.
    The exit status of [blkid] plays no part: only its output is read. *)
Theorem safeFormat_formats_only_blank (f : FSUtil) (path : string)
    (st : run W) :
  (exists err, fst (safeFormat f path st) = Returns err)
  /\ issued (snd (safeFormat f path st))
     = (issued st
        ++ ("blkid", ["-o"; "udev"; path])
           :: match
                doCheckFSType
                  (fst (fst (CombinedOutput "blkid" ["-o"; "udev"; path]
                               (world st))))
              with
              | (EmptyString, None) =>
                if (FSType f =? "")%string then []
                else [("mkfs", ["-t"; FSType f; path])]
              | _ => []
              end)%list.
Proof.
  unfold safeFormat, checkFSType, bind. rewrite exec_ran.
  destruct (fst (CombinedOutput "blkid" ["-o"; "udev"; path] (world st)))
    as [out status]. cbn [fst].
  destruct (doCheckFSType out) as [fs [err|]].
  - split; [eexists; reflexivity|]. now destruct fs.
  - cbn [ret]. destruct fs as [|c fs].
    + destruct (String.eqb_spec "" (FSType f)) as [<-|Hwanted].
      * split; [eexists; reflexivity|]. reflexivity.
      * cbn [String.eqb negb andb]. rewrite exec_ran.
        destruct (String.eqb_spec (FSType f) "") as [Hnone|_];
          [now destruct Hwanted|].
        destruct (fst (CombinedOutput "mkfs" ["-t"; FSType f; path] _))
          as [out' [err|]]; (split; [eexists; reflexivity|]);
          simpl; now rewrite <- app_assoc.
    + destruct (String.eqb_spec (String c fs) (FSType f)) as [_|_];
        (split; [eexists; reflexivity|]); reflexivity.
Qed.

End Probe.

(** ** Polling for the device *)

Section Polling.
Context {W : Type} `{Host W} `{Json} `{Language}.

(** One attempt returns a path or an error, never both and never neither;
    a path it returns has passed [Lstat]. *)
Lemma getDevPath_result (r : Resource) (st st' : run W) (path : string)
    (err : option error) :
  getDevPath r st = (Returns (path, err), st') ->
  (path = EmptyString /\ err <> None)
  \/ (path <> EmptyString /\ err = None
      /\ Lstat path (world st') = None
      /\ exists minor, path = "/dev/drbd" +:+ format_d minor).
Proof.
  unfold getDevPath, bind. rewrite exec_ran.
  destruct (fst (CombinedOutput "linstor" ls_rsc (world st))) as [out [e|]].
  - intros [= <- <- _]. left. split; [reflexivity|discriminate].
  - destruct (Unmarshal_resList out) as [e|l].
    + intros [= <- <- _]. left. split; [reflexivity|discriminate].
    + destruct (l !! 0%nat) as [first|]; [|discriminate].
      unfold lstat.
      destruct (Lstat (doGetDevPath (getDevPath_vol (ResourceStates first)
                                       (r_Name r)))
                  (world (ran "linstor" ls_rsc st))) as [e|] eqn:Hstat.
      * intros [= <- <- _]. left. split; [reflexivity|discriminate].
      * intros [= <- <- <-]. right.
        split; [|split; [reflexivity|split; [exact Hstat|]]].
        -- intros Hempty.
           pose proof (doGetDevPath_nonempty
                         (getDevPath_vol (ResourceStates first) (r_Name r)))
             as Hsome.
           rewrite Hempty in Hsome. discriminate.
        -- eexists. reflexivity.
Qed.

Lemma WaitForDevPath_loop_step (r : Resource) (n : nat) (p0 : string)
    (e0 : option error) (st : run W) :
  WaitForDevPath_loop r (S n) p0 e0 st
  = match getDevPath r st with
    | (Returns (path, err), st1) =>
      if negb (path =? "")%string then (Returns (path, err), st1)
      else WaitForDevPath_loop r n path err (slept 2 st1)
    | (Panics message, st1) => (Panics message, st1)
    end.
Proof.
  cbn [WaitForDevPath_loop]. unfold bind at 1.
  destruct (getDevPath r st) as [[[path err]|message] st1]; [|reflexivity].
  now destruct (negb (path =? "")%string).
Qed.

Lemma WaitForDevPath_loop_found (r : Resource) (n : nat) :
  forall (st st' : run W) (e0 err : option error) (path : string),
  WaitForDevPath_loop r n EmptyString e0 st = (Returns (path, err), st') ->
  path <> EmptyString ->
  err = None
  /\ Lstat path (world st') = None
  /\ exists minor, path = "/dev/drbd" +:+ format_d minor.
Proof.
  induction n as [|n IH]; intros st st' e0 err path.
  - intros [= <- _ _] Hpath. now destruct Hpath.
  - rewrite WaitForDevPath_loop_step.
    destruct (getDevPath r st) as [[[p e]|message] st1] eqn:Hattempt;
      [|discriminate].
    destruct (String.eqb_spec p "") as [->|Hp]; cbn [negb].
    + intros Hrest. exact (IH _ _ _ _ _ Hrest).
    + intros [= <- <- <-] _.
      destruct (getDevPath_result _ _ _ _ _ Hattempt) as [[Hempty _]|Hfound];
        [contradiction|tauto].
Qed.

(** X15.  A path that [WaitForDevPath] returns non-empty comes with a nil
    error, is [/dev/drbd] followed by a decimal number, and passed [Lstat]
    on the host in the state the call returns in: the polling never hands
    out a path it has not seen. *)
Theorem WaitForDevPath_path_was_checked (r : Resource) (maxRetries : Z)
    (st st' : run W) (path : string) (err : option error) :
  WaitForDevPath r maxRetries st = (Returns (path, err), st') ->
  path <> EmptyString ->
  err = None
  /\ Lstat path (world st') = None
  /\ exists minor, path = "/dev/drbd" +:+ format_d minor.
Proof. apply WaitForDevPath_loop_found. Qed.

Lemma WaitForDevPath_loop_error (r : Resource) (n : nat) :
  forall (st : run W) (p0 : string) (e0 : option error),
  e0 <> None ->
  fst (WaitForDevPath_loop r n p0 e0 st) <> Returns (EmptyString, None).
Proof.
  induction n as [|n IH]; intros st p0 e0 He0.
  - simpl. congruence.
  - rewrite WaitForDevPath_loop_step.
    destruct (getDevPath r st) as [[[p e]|message] st1] eqn:Hattempt;
      [|discriminate].
    destruct (getDevPath_result _ _ _ _ _ Hattempt)
      as [[-> He]|(Hp & _)].
    + cbn [String.eqb negb]. apply IH. exact He.
    + destruct (String.eqb_spec p "") as [|_]; [contradiction|].
      cbn [negb ret fst]. congruence.
Qed.

(** After one attempt at least, the result is not the empty path with a
    nil error. *)
Lemma WaitForDevPath_loop_attempted (r : Resource) (n : nat) (st : run W) :
  fst (WaitForDevPath_loop r (S n) EmptyString None st)
  <> Returns (EmptyString, None).
Proof.
  rewrite WaitForDevPath_loop_step.
  destruct (getDevPath r st) as [[[p e]|message] st1] eqn:Hattempt;
    [|discriminate].
  destruct (getDevPath_result _ _ _ _ _ Hattempt)
    as [[-> He]|(Hp & _)].
  - cbn [String.eqb negb]. now apply WaitForDevPath_loop_error.
  - destruct (String.eqb_spec p "") as [|_]; [contradiction|].
    cbn [negb ret fst]. congruence.
Qed.

(** X16.  [WaitForDevPath] returns the empty path together with a nil
    error exactly when [maxRetries] is zero or negative, where it does not
    poll at all.  With a positive [maxRetries] an empty path always comes
    with the error of the last attempt. *)
Theorem WaitForDevPath_empty_handed_iff (r : Resource) (maxRetries : Z)
    (st : run W) :
  fst (WaitForDevPath r maxRetries st) = Returns (EmptyString, None)
  <-> maxRetries <= 0.
Proof.
  unfold WaitForDevPath. split.
  - intros Hnothing.
    destruct (Z.to_nat maxRetries) as [|n] eqn:Hn; [lia|].
    destruct (WaitForDevPath_loop_attempted r n st Hnothing).
  - intros Hnone. now replace (Z.to_nat maxRetries) with 0%nat by lia.
Qed.

Lemma WaitForDevPath_loop_attempts (r : Resource) (n : nat) :
  forall (st : run W) (e0 : option error),
  (exists k, (k < n)%nat
     /\ snd (WaitForDevPath_loop r n EmptyString e0 st)
        = ran "linstor" ls_rsc (Nat.iter k failed_attempt st)
     /\ fst (WaitForDevPath_loop r n EmptyString e0 st)
        = fst (getDevPath r (Nat.iter k failed_attempt st))
     /\ forall err,
          fst (WaitForDevPath_loop r n EmptyString e0 st)
          <> Returns (EmptyString, err))
  \/ (snd (WaitForDevPath_loop r n EmptyString e0 st)
      = Nat.iter n failed_attempt st
      /\ exists err,
           fst (WaitForDevPath_loop r n EmptyString e0 st)
           = Returns (EmptyString, err)).
Proof.
  induction n as [|n IH]; intros st e0.
  - right. split; [reflexivity|]. now exists e0.
  - rewrite WaitForDevPath_loop_step.
    pose proof (getDevPath_ran r st) as Hran.
    destruct (getDevPath r st) as [[[p e]|message] st1] eqn:Hattempt;
      cbn [snd] in Hran; subst st1.
    + destruct (String.eqb_spec p "") as [->|Hp]; cbn [negb].
      * fold (failed_attempt st).
        destruct (IH (failed_attempt st) e)
          as [(k & Hk & Hstate & Hresult & Hfound)|[Hstate Hresult]].
        -- left. exists (S k). rewrite Nat.iter_succ_r.
           split; [lia|]. auto.
        -- right. rewrite Nat.iter_succ_r. auto.
      * left. exists 0%nat.
        change (Nat.iter 0 failed_attempt st) with st. rewrite Hattempt.
        split; [lia|]. split; [reflexivity|]. split; [reflexivity|].
        intros err [= Hempty _]. contradiction.
    + left. exists 0%nat.
      change (Nat.iter 0 failed_attempt st) with st. rewrite Hattempt.
      split; [lia|]. split; [reflexivity|]. split; [reflexivity|].
      discriminate.
Qed.


(** ** Mounting and unmounting *)

(** X18.  When [Mount] returns nil, the [FSUtil] had a resource, the
    polling found a device path for it, [/dev/drbd] followed by a decimal
    number, that had passed [Lstat], [safeFormat] returned nil on that
    device, and the last two commands run are [mkdir -p] on the mount path
    and [mount] of that device on the mount path, in this order. *)
Theorem Mount_success (f : FSUtil) (path : string) (st st' : run W) :
  Mount f path st = (Returns None, st') ->
  exists r device before,
    fs_Resource f = Some r
    /\ fst (WaitForDevPath r 3 st) = Returns (device, None)
    /\ (exists minor, device = "/dev/drbd" +:+ format_d minor)
    /\ Lstat device (world (snd (WaitForDevPath r 3 st))) = None
    /\ fst (safeFormat f device (snd (WaitForDevPath r 3 st))) = Returns None
    /\ issued st'
       = (before ++ [("mkdir", ["-p"; path]); ("mount", [device; path])])%list.
Proof.
  unfold Mount. destruct (fs_Resource f) as [r|]; [|discriminate].
  unfold bind at 1.
  destruct (WaitForDevPath r 3 st) as [[[device [err|]]|message] st1]
    eqn:Hwait; try discriminate.
  assert (Hdevice : device <> EmptyString).
  { intros ->.
    apply (WaitForDevPath_loop_attempted r 2 st).
    change (WaitForDevPath_loop r 3 EmptyString None st)
      with (WaitForDevPath r 3 st).
    now rewrite Hwait. }
  destruct (WaitForDevPath_loop_found _ _ _ _ _ _ _ Hwait Hdevice)
    as (_ & Hstat & Hminor).
  unfold bind at 1.
  destruct (safeFormat f device st1) as [[[err|]|message] st2] eqn:Hformat;
    try discriminate.
  unfold bind. rewrite !exec_ran.
  destruct (fst (CombinedOutput "mkdir" ["-p"; path] (world st2)))
    as [out [err|]]; [discriminate|].
  rewrite exec_ran.
  destruct (fst (CombinedOutput "mount" [device; path] _))
    as [out' [err|]]; [discriminate|].
  intros [= <-]. exists r, device, (issued st2).
  rewrite Hwait. cbn [fst snd]. rewrite Hformat.
  repeat split; try assumption.
  unfold ran. cbn [issued]. now rewrite <- app_assoc.
Qed.

(** X19.  When the polling of [Mount] comes back with an empty path,
    [Mount] returns the [couldn't find Resource device path] error after
    three listing queries and three sleeps of two seconds, and that is all
    it has run: no probe, no [mkfs], no [mkdir], no [mount]. *)
Theorem Mount_without_device (f : FSUtil) (r : Resource) (path : string)
    (st : run W) :
  fs_Resource f = Some r ->
  (exists err, fst (WaitForDevPath r 3 st) = Returns (EmptyString, err)) ->
  snd (Mount f path st) = Nat.iter 3 failed_attempt st
  /\ exists err,
       fst (Mount f path st)
       = Returns (Some (Errorf
           "unable to mount device, couldn't find Resource device path: %v"
           [OError err])).
Proof.
  intros Hresource [err Hnothing].
  assert (Herr : err <> None).
  { intros ->. exact (WaitForDevPath_loop_attempted r 2 st Hnothing). }
  destruct err as [err|]; [clear Herr|now destruct Herr].
  destruct (WaitForDevPath_loop_attempts r 3 st None)
    as [(k & _ & _ & _ & Hfound)|[Hstate _]];
    [destruct (Hfound _ Hnothing)|].
  unfold Mount. rewrite Hresource. unfold bind.
  change (WaitForDevPath_loop r 3 EmptyString None st)
    with (WaitForDevPath r 3 st) in Hstate.
  destruct (WaitForDevPath r 3 st) as [result st1].
  cbn [fst snd] in *. subst result st1.
  split; [reflexivity|]. now exists err.
Qed.

End Polling.

(** X15, witness: the device of r0 exists on the fixture. *)
Lemma WaitForDevPath_path_was_checked_witness :
  (None : option error) = None
  /\ @Lstat _ Fixture.host "/dev/drbd7"
       (Fixture.mk_plane Fixture.one_node "" ["/dev/drbd7"] 0)
     = None
  /\ exists minor, "/dev/drbd7" = "/dev/drbd" +:+ format_d minor.
Proof.
  exact (@WaitForDevPath_path_was_checked _ Fixture.host Fixture.json
           Fixture.language Fixture.r0 3
           (Fixture.start (Fixture.mk_plane Fixture.one_node "" ["/dev/drbd7"] 0))
           (mk_run (Fixture.mk_plane Fixture.one_node "" ["/dev/drbd7"] 0)
              [("linstor", ls_rsc)])
           "/dev/drbd7" None ltac:(vm_compute; reflexivity)
           ltac:(discriminate)).
Defined.

(** X18, witness: the fixture where the device of r0 exists and carries
    no file system. *)
Lemma Mount_success_witness :
  exists r device before,
    fs_Resource (mk_FSUtil (Some Fixture.r0) "ext4") = Some r
    /\ fst (@WaitForDevPath _ Fixture.host Fixture.json Fixture.language r 3
              (Fixture.start
                 (Fixture.mk_plane Fixture.one_node "" ["/dev/drbd7"] 0)))
       = Returns (device, None)
    /\ (exists minor, device = "/dev/drbd" +:+ format_d minor)
    /\ @Lstat _ Fixture.host device
         (world (snd (@WaitForDevPath _ Fixture.host Fixture.json
                        Fixture.language r 3
                        (Fixture.start
                           (Fixture.mk_plane Fixture.one_node ""
                              ["/dev/drbd7"] 0)))))
       = None
    /\ fst (@safeFormat _ Fixture.host (mk_FSUtil (Some Fixture.r0) "ext4")
              device
              (snd (@WaitForDevPath _ Fixture.host Fixture.json
                      Fixture.language r 3
                      (Fixture.start
                         (Fixture.mk_plane Fixture.one_node ""
                            ["/dev/drbd7"] 0)))))
       = Returns None
    /\ [("linstor", ls_rsc);
        ("blkid", ["-o"; "udev"; "/dev/drbd7"]);
        ("mkfs", ["-t"; "ext4"; "/dev/drbd7"]);
        ("mkdir", ["-p"; "/mnt/r0"]);
        ("mount", ["/dev/drbd7"; "/mnt/r0"])]
       = (before ++ [("mkdir", ["-p"; "/mnt/r0"]);
                     ("mount", [device; "/mnt/r0"])])%list.
Proof.
  apply (@Mount_success _ Fixture.host Fixture.json Fixture.language
           (mk_FSUtil (Some Fixture.r0) "ext4") "/mnt/r0"
           (Fixture.start (Fixture.mk_plane Fixture.one_node "" ["/dev/drbd7"] 0))
           (mk_run
              (Fixture.mk_plane Fixture.one_node "ID_FS_TYPE=ext4"
                 ["/dev/drbd7"] 0)
              [("linstor", ls_rsc);
               ("blkid", ["-o"; "udev"; "/dev/drbd7"]);
               ("mkfs", ["-t"; "ext4"; "/dev/drbd7"]);
               ("mkdir", ["-p"; "/mnt/r0"]);
               ("mount", ["/dev/drbd7"; "/mnt/r0"])])).
  vm_compute. reflexivity.
Defined.

(** X19, witness: the fixture where the device of r0 does not exist: three
    queries, six seconds. *)
Lemma Mount_without_device_witness :
  snd (@Mount _ Fixture.host Fixture.json Fixture.language
         (mk_FSUtil (Some Fixture.r0) "ext4") "/mnt/r0"
         (Fixture.start (Fixture.mk_plane Fixture.one_node "" [] 0)))
  = mk_run (Fixture.mk_plane Fixture.one_node "" [] 6)
      [("linstor", ls_rsc); ("linstor", ls_rsc); ("linstor", ls_rsc)].
Proof.
  refine (proj1 (@Mount_without_device _ Fixture.host Fixture.json
                   Fixture.language (mk_FSUtil (Some Fixture.r0) "ext4")
                   Fixture.r0 "/mnt/r0"
                   (Fixture.start (Fixture.mk_plane Fixture.one_node "" [] 0))
                   eq_refl _)).
  eexists. vm_compute. reflexivity.
Defined.

Section Unmounting.
Context {W : Type} `{Host W}.


End Unmounting.

(** ** Placing the resource *)

Section Placement.
Context {W : Type} `{Host W} `{Json}.





End Placement.




(** ** Callers of the readers *)

Section Callers.
Context {W : Type} `{Host W} `{Json} `{Language}.

(** X23.  When [Assign] cannot tell whether the resource is defined,
    because its listing query exits with an error or prints what does not
    decode, it returns the [Unable to determine] error around the error of
    [Exists] after that one query: no node is looked at and nothing is
    created. *)
Theorem Assign_without_listing (r : Resource) (out : string) (st : run W) :
  (forall err,
     fst (CombinedOutput "linstor" ls_rsc (world st)) = (out, Some err) ->
     Assign r st
     = (Returns (Some (Errorf "Unable to determine if resource %s is defined %v"
                         [OString (r_Name r); OError err])),
        ran "linstor" ls_rsc st))
  /\ (forall err,
        fst (CombinedOutput "linstor" ls_rsc (world st)) = (out, None) ->
        Unmarshal_resList out = inl err ->
        Assign r st
        = (Returns (Some (Errorf "Unable to determine if resource %s is defined %v"
                            [OString (r_Name r);
                             OError (Errorf "couldn't Unmarshal %s :%v"
                                       [OString out; OError err])])),
           ran "linstor" ls_rsc st)).
Proof.
  split.
  - intros err Hout.
    assert (Hexists : Exists r st
                      = (Returns (false, Some err), ran "linstor" ls_rsc st)).
    { unfold Exists, bind. now rewrite exec_ran, Hout. }
    unfold Assign. now rewrite (bind_returns _ _ _ _ _ Hexists).
  - intros err Hout Hdecode.
    assert (Hexists : Exists r st
                      = (Returns (false,
                                  Some (Errorf "couldn't Unmarshal %s :%v"
                                          [OString out; OError err])),
                         ran "linstor" ls_rsc st)).
    { unfold Exists, bind. rewrite exec_ran, Hout.
      unfold lift, doResExists. now rewrite Hdecode. }
    unfold Assign. now rewrite (bind_returns _ _ _ _ _ Hexists).
Qed.

(** X24.  The panic of a reader on a listing that decodes to an empty
    top-level array reaches its callers: [Assign] panics in [Exists],
    [WaitForDevPath] with a positive [maxRetries] panics in its first
    attempt, without sleeping or trying again, and [Mount] panics in the
    polling, each after one listing query and nothing else.  Without a
    resource in the [FSUtil], [Mount] panics with a nil dereference before
    it runs anything. *)
Theorem panic_reaches_callers (r : Resource) (f : FSUtil)
    (path out : string) (maxRetries : Z) (st : run W) :
  Unmarshal_resList out = inr [] ->
  fst (CombinedOutput "linstor" ls_rsc (world st)) = (out, None) ->
  Assign r st = (Panics index_out_of_range, ran "linstor" ls_rsc st)
  /\ (0 < maxRetries ->
      WaitForDevPath r maxRetries st
      = (Panics index_out_of_range, ran "linstor" ls_rsc st))
  /\ (fs_Resource f = Some r ->
      Mount f path st = (Panics index_out_of_range, ran "linstor" ls_rsc st))
  /\ (fs_Resource f = None -> Mount f path st = (Panics nil_dereference, st)).
Proof.
  intros Hdecode Hout.
  assert (Hexists : Exists r st
                    = (Panics index_out_of_range, ran "linstor" ls_rsc st)).
  { unfold Exists, bind. rewrite exec_ran, Hout.
    unfold lift, doResExists. now rewrite Hdecode. }
  assert (Hattempt : getDevPath r st
                     = (Panics index_out_of_range, ran "linstor" ls_rsc st)).
  { unfold getDevPath, bind. now rewrite exec_ran, Hout, Hdecode. }
  assert (Hwait : forall n,
            WaitForDevPath_loop r (S n) EmptyString None st
            = (Panics index_out_of_range, ran "linstor" ls_rsc st)).
  { intros n. now rewrite WaitForDevPath_loop_step, Hattempt. }
  split; [|split; [|split]].
  - unfold Assign. now rewrite (bind_panics _ _ _ _ _ Hexists).
  - intros Hsome. unfold WaitForDevPath.
    destruct (Z.to_nat maxRetries) as [|n] eqn:Hn; [lia|]. apply Hwait.
  - intros Hresource. unfold Mount. rewrite Hresource.
    exact (bind_panics _ _ _ _ _ (Hwait 2%nat)).
  - intros Hresource. unfold Mount. now rewrite Hresource.
Qed.

End Callers.

(** X23, witness: the control plane is down, and [Assign] stops after its
    first query. *)
Lemma Assign_without_listing_witness :
  @Assign _ Outage.host Fixture.json Fixture.r0
    (mk_run (Fixture.two_nodes, false) [])
  = (Returns (Some (Errorf "Unable to determine if resource %s is defined %v"
                      [OString "r0"; OError (Foreign "exit status 1")])),
     mk_run (Fixture.two_nodes, false) [("linstor", ls_rsc)]).
Proof.
  exact (proj1 (@Assign_without_listing _ Outage.host Fixture.json Fixture.r0
                  Fixture.two_nodes (mk_run (Fixture.two_nodes, false) []))
           (Foreign "exit status 1") eq_refl).
Defined.

(** X24, witness: the fixture's control plane printing [[]]. *)
Lemma panic_reaches_callers_witness :
  @Assign _ Fixture.host Fixture.json Fixture.r0
    (Fixture.start (Fixture.mk_plane "[]" "" ["/dev/drbd0"] 0))
  = (Panics index_out_of_range,
     mk_run (Fixture.mk_plane "[]" "" ["/dev/drbd0"] 0) [("linstor", ls_rsc)])
  /\ @Mount _ Fixture.host Fixture.json Fixture.language
       (mk_FSUtil (Some Fixture.r0) "ext4") "/mnt/r0"
       (Fixture.start (Fixture.mk_plane "[]" "" ["/dev/drbd0"] 0))
     = (Panics index_out_of_range,
        mk_run (Fixture.mk_plane "[]" "" ["/dev/drbd0"] 0)
          [("linstor", ls_rsc)]).
Proof.
  pose proof (@panic_reaches_callers _ Fixture.host Fixture.json
                Fixture.language Fixture.r0
                (mk_FSUtil (Some Fixture.r0) "ext4") "/mnt/r0" "[]" 3
                (Fixture.start (Fixture.mk_plane "[]" "" ["/dev/drbd0"] 0))
                ltac:(vm_compute; reflexivity) eq_refl) as Hpanics.
  split.
  - exact (proj1 Hpanics).
  - exact (proj1 (proj2 (proj2 Hpanics)) eq_refl).
Defined.
